(** * Verification of the loom point-cloud scene generators

    Shallow embedding of [src/backend/app.py] (class [PointCloudProcessor])
    and [src/generate_sample_data.py] (class [HighPerformanceSampleGenerator]).

    Modelling conventions.
    - Python numbers (ints and floats alike) that flow into coordinates and
      intensities are rationals [Q]; arithmetic is exact, so binary rounding
      of IEEE doubles is not modelled.  Point counts and loop bounds are [Z]
      and [nat].
    - NumPy's random generator, its trigonometric functions, the constant
      [np.pi], the float32 cast and [time.time()] are external to the
      repository: they are the fields of the record [NumPy], and every
      definition is parametric in it.  The generator is threaded explicitly
      as a state of type [rng].
    - A Python exception is a value of type [exn]; code that can raise
      returns a [result]. *)

From Stdlib Require Import String Ascii Bool Arith ZArith QArith Qabs Qminmax List.
From Stdlib Require Import Lia Lqa DecimalString.
Import ListNotations.
Local Open Scope string_scope.
Local Open Scope Z_scope.
Local Open Scope Q_scope.
Local Open Scope list_scope.

Set Implicit Arguments.

(** ** Python prelude *)

Inductive exn : Type :=
| AttributeError (name : string)
| IndexError
| ArrowInvalid.

Inductive result (A : Type) : Type :=
| Ok (a : A)
| Err (e : exn).

Arguments Ok {A} a.
Arguments Err {A} e.

(** [range(n)]: empty when [n <= 0]. *)
Definition range (n : Z) : list Z := map Z.of_nat (seq 0 (Z.to_nat n)).

(** [enumerate(l)] *)
Definition enumerate {A : Type} (l : list A) : list (Z * A) :=
  combine (range (Z.of_nat (length l))) l.

(** [l[:n]]: a negative [n] counts from the end of the list. *)
Definition slice_to {A : Type} (n : Z) (l : list A) : list A :=
  if (0 <=? n)%Z then firstn (Z.to_nat n) l
  else firstn (length l - Z.to_nat (- n)) l.

(** [str(i)] for an integer, as an f-string prints it. *)
Definition str_of_Z (z : Z) : string := NilZero.string_of_int (Z.to_int z).

(** [a < b] and [a > b] on numbers. *)
Definition Qltb (a b : Q) : bool := negb (Qle_bool b a).
Definition Qgtb (a b : Q) : bool := Qltb b a.

(** A point [[x, y, z, intensity]]. *)
Record Point : Type := mkPoint { px : Q; py : Q; pz : Q; intensity : Q }.

(** ** The external numeric library *)

Record NumPy : Type := mkNumPy {
  rng : Type;
  uniform : Q -> Q -> rng -> Q * rng;      (* np.random.uniform(low, high) *)
  normal : Q -> Q -> rng -> Q * rng;       (* np.random.normal(loc, scale) *)
  random : rng -> Q * rng;                 (* np.random.random() *)
  choice : list string -> rng -> string * rng;  (* np.random.choice(seq) *)
  cos : Q -> Q;
  sin : Q -> Q;
  pi : Q;
  float32 : Q -> Q;                        (* cast to dtype=np.float32 *)
  time_time : Q                            (* time.time() *)
}.

(** The contract of [np.random.uniform] used by the intensity bounds: a draw
    from [low, high) lies between its two arguments. *)
Definition uniform_in_range (np : NumPy) : Prop :=
  forall (lo hi : Q) (s : rng np),
    lo <= hi -> lo <= fst (uniform np lo hi s) /\ fst (uniform np lo hi s) <= hi.

(** ** Computations that draw random numbers *)

Definition M (S A : Type) : Type := S -> A * S.

Definition ret {S A : Type} (a : A) : M S A := fun s => (a, s).

Definition bind {S A B : Type} (m : M S A) (k : A -> M S B) : M S B :=
  fun s => let (a, s') := m s in k a s'.

Declare Scope monad_scope.
Delimit Scope monad_scope with monad.
Notation "x <- m ;; k" := (bind m (fun x => k))
  (at level 61, m at next level, right associativity) : monad_scope.

(** [for a in l: st = body(a, st)] *)
Fixpoint for_in {S A St : Type} (l : list A) (body : A -> St -> M S St)
  (st : St) : M S St :=
  match l with
  | [] => ret st
  | a :: l' => bind (body a st) (for_in l' body)
  end.

(** ** [backend/app.py]: class [PointCloudProcessor] *)

(** The PyArrow table built by [_to_pyarrow_table], column by column. *)
Record Table : Type := mkTable {
  col_x : list Q;
  col_y : list Q;
  col_z : list Q;
  col_intensity : list Q;
  col_label : list string;
  col_timestamp : list Q
}.

(** [len(table)] *)
Definition num_rows (t : Table) : nat := length (col_x t).

Module PointCloudProcessor.
Section WithNumPy.
Variable np : NumPy.
Local Abbreviation Rand := (M (rng np)).
Local Open Scope monad_scope.

Definition _generate_traffic_light (center : Q * Q * Q) (num_points : Z)
  : Rand (list Point) :=
  let '(x, y, z) := center in
  (* Main pole (vertical) *)
  points <- for_in (range (num_points / 3)%Z) (fun _ points =>
      dx <- normal np 0 0.05 ;;
      dy <- normal np 0 0.05 ;;
      pz <- uniform np 0 z ;;
      u <- uniform np 0 0.2 ;;
      ret (points ++ [mkPoint (x + dx) (y + dy) pz (0.6 + u)])) [] ;;
  (* Light housing (rectangular) *)
  points <- for_in (range (num_points / 3)%Z) (fun _ points =>
      dx <- uniform np (-0.2) 0.2 ;;
      dy <- uniform np (-0.1) 0.1 ;;
      dz <- uniform np (-0.3) 0.3 ;;
      u <- uniform np 0 0.2 ;;
      ret (points ++ [mkPoint (x + dx) (y + dy) (z + dz) (0.8 + u)])) points ;;
  (* Mounting arm *)
  points <- for_in (range (num_points / 3)%Z) (fun _ points =>
      dx <- uniform np (-1) 0 ;;
      dy <- normal np 0 0.05 ;;
      dz <- uniform np (-0.1) 0.1 ;;
      u <- uniform np 0 0.2 ;;
      ret (points ++ [mkPoint (x + dx) (y + dy) (z + dz) (0.7 + u)])) points ;;
  ret points.

Definition _generate_car (center : Q * Q * Q) (yaw : Q) (num_points : Z)
  : Rand (list Point) :=
  let '(x, y, z) := center in
  (* Car dimensions (typical sedan) *)
  let '(length, width, height) := (4.5, 1.8, 1.4) in
  points <- for_in (range num_points) (fun _ points =>
      local_x <- uniform np (- length / 2) (length / 2) ;;
      local_y <- uniform np (- width / 2) (width / 2) ;;
      local_z <- uniform np 0 height ;;
      let '(cos_yaw, sin_yaw) := (cos np yaw, sin np yaw) in
      let world_x := x + (local_x * cos_yaw - local_y * sin_yaw) in
      let world_y := y + (local_x * sin_yaw + local_y * cos_yaw) in
      let world_z := z + local_z in
      u <- uniform np 0 0.4 ;;
      ret (points ++ [mkPoint world_x world_y world_z (0.4 + u)])) [] ;;
  ret points.

Definition _generate_road_surface (num_points : Z) : Rand (list Point) :=
  points <- for_in (range num_points) (fun _ points =>
      x <- uniform np (-20) 20 ;;
      y <- uniform np (-15) 15 ;;
      z <- uniform np (-0.1) 0.1 ;;
      u <- uniform np 0 0.2 ;;
      ret (points ++ [mkPoint x y z (0.2 + u)])) [] ;;
  ret points.

(** [np.array([])] is one-dimensional, so [points_array[:, 0]] raises
    [IndexError] on an empty list of points; [pa.table] raises
    [ArrowInvalid] when its columns differ in length. *)
Definition _to_pyarrow_table (points : list Point) (labels : list string)
  : result Table :=
  match points with
  | [] => Err IndexError
  | _ :: _ =>
      let points_array := points in
      if Nat.eqb (length labels) (length points_array) then
        Ok {| col_x := map (fun p => float32 np (px p)) points_array;
              col_y := map (fun p => float32 np (py p)) points_array;
              col_z := map (fun p => float32 np (pz p)) points_array;
              col_intensity := map (fun p => float32 np (intensity p)) points_array;
              col_label := labels;
              col_timestamp := repeat (time_time np) (length points) |}
      else Err ArrowInvalid
  end.

Definition traffic_light_positions : list (Q * Q * Q) :=
  [(5, -2, 3.5); (-5, 2, 3.5); (0, 5, 3.5)].

Definition car_positions : list (Q * Q * Q * Q) :=
  [(8, -5, 0.8, 0); (12, -5, 0.8, 0);
   (-8, 5, 0.8, 3.14); (-12, 5, 0.8, 3.14);
   (2, 10, 0.8, 1.57); (-2, 10, 0.8, 1.57)].

(** The accumulators [points] and [labels] before the final slice. *)
Definition _create_traffic_scene_accumulate (num_points : Z)
  : Rand (list Point * list string) :=
  let points := [] in
  let labels := [] in
  (* Traffic lights (3 lights at intersection) *)
  acc <- for_in (enumerate traffic_light_positions)
    (fun '(i, pos) '(points, labels) =>
      light_points <- _generate_traffic_light pos 200 ;;
      ret (points ++ light_points,
           labels ++ repeat ("traffic_light_" ++ str_of_Z (i + 1))%string
                            (length light_points)))
    (points, labels) ;;
  (* Cars parked nearby *)
  acc <- for_in (enumerate car_positions)
    (fun '(i, (x, y, z, yaw)) '(points, labels) =>
      car_points <- _generate_car (x, y, z) yaw 300 ;;
      ret (points ++ car_points,
           labels ++ repeat ("car_" ++ str_of_Z (i + 1))%string
                            (length car_points)))
    acc ;;
  (* Road surface *)
  let '(points, labels) := acc in
  let remaining := (num_points - Z.of_nat (length points))%Z in
  road_points <- _generate_road_surface remaining ;;
  ret (points ++ road_points, labels ++ repeat "road" (length road_points)).

Definition _create_traffic_scene (num_points : Z) : Rand (result Table) :=
  acc <- _create_traffic_scene_accumulate num_points ;;
  let '(points, labels) := acc in
  ret (_to_pyarrow_table (slice_to num_points points)
                         (slice_to num_points labels)).

(** The class defines [_create_traffic_scene] only: [_create_urban_street],
    [_create_parking_lot] and [_create_random_scene] are not attributes of
    [PointCloudProcessor], so looking them up raises [AttributeError]
    before anything is generated. *)
Definition generate_sample_data (preset : string) (num_points : Z)
  : Rand (result Table) :=
  if String.eqb preset "traffic_scene" then
    _create_traffic_scene num_points
  else if String.eqb preset "urban_street" then
    ret (Err (AttributeError "_create_urban_street"))
  else if String.eqb preset "parking_lot" then
    ret (Err (AttributeError "_create_parking_lot"))
  else
    ret (Err (AttributeError "_create_random_scene")).

End WithNumPy.
End PointCloudProcessor.

(** ** [generate_sample_data.py]: class [HighPerformanceSampleGenerator] *)

(** Python values stored in the scene-object dictionaries and written to the
    JSON document.  A dictionary literal is the list of its items in source
    order. *)
#[warnings="-register-all"] Inductive pyval : Type :=
| PNum (q : Q)
| PStr (s : string)
| PList (l : list pyval)
| PDict (d : list (string * pyval)).

(** [d.get(k)] on the items of a dictionary. *)
Fixpoint assoc_get (k : string) (d : list (string * pyval)) : option pyval :=
  match d with
  | [] => None
  | (k', v) :: d' => if String.eqb k k' then Some v else assoc_get k d'
  end.

Definition py_get (k : string) (v : pyval) : option pyval :=
  match v with
  | PDict d => assoc_get k d
  | _ => None
  end.

(** The list [[x, y, z]]. *)
Definition py_vec (c : Q * Q * Q) : pyval :=
  let '(x, y, z) := c in PList [PNum x; PNum y; PNum z].

(** [int(q)]: truncation towards zero. *)
Definition py_int (q : Q) : Z := Z.quot (Qnum q) (Z.pos (Qden q)).

Record Bounds : Type := mkBounds {
  x_min : Q; x_max : Q;
  y_min : Q; y_max : Q;
  z_min : Q; z_max : Q
}.

Record Metadata : Type := mkMetadata {
  total_points : nat;
  num_objects : nat;
  scene_bounds : Bounds
}.

(** The dictionary returned by a scene generator. *)
Record Scene : Type := mkScene {
  scene_points : list Point;      (* "points", cast to float32 *)
  scene_labels : list string;     (* "labels" *)
  scene_objects : list pyval;     (* "scene_objects" *)
  scene_type : string;            (* "scene_type" *)
  metadata : Metadata             (* "metadata" *)
}.

(** [np.array(points, dtype=np.float32)] *)
Definition to_float32 (np : NumPy) (points : list Point) : list Point :=
  map (fun p => mkPoint (float32 np (px p)) (float32 np (py p))
                        (float32 np (pz p)) (float32 np (intensity p))) points.

(** Street-furniture kinds of the urban layout. *)
Inductive furniture_kind : Type := lamp_post | bench.

Definition furniture_kind_str (k : furniture_kind) : string :=
  match k with lamp_post => "lamp_post" | bench => "bench" end.

(** The [json] module of the Python standard library, external to the
    repository: [text] is what [json.dump] writes to a file. *)
Record JsonLib : Type := mkJsonLib {
  text : Type;
  json_dump : pyval -> text;
  json_load : text -> option pyval
}.

(** Contract of the [json] module on the values of [pyval]: loading a dumped
    value gives the value back. *)
Definition json_round_trip (js : JsonLib) : Prop :=
  forall v : pyval, json_load js (json_dump js v) = Some v.

(** Files on disk: the most recent write to a path comes first. *)
Definition Files (T : Type) : Type := list (string * T).

Definition write_file {T : Type} (path : string) (content : T) (fs : Files T)
  : Files T := (path, content) :: fs.

Fixpoint read_file {T : Type} (path : string) (fs : Files T) : option T :=
  match fs with
  | [] => None
  | (p, c) :: fs' => if String.eqb path p then Some c else read_file path fs'
  end.

(** The accumulators [all_points], [all_labels] and [scene_objects]. *)
Abbreviation Acc := (list Point * list string * list pyval)%type.

Module HighPerformanceSampleGenerator.
Section WithNumPy.
Variable np : NumPy.
Local Abbreviation Rand := (M (rng np)).
Local Open Scope monad_scope.

Definition _create_traffic_light_detailed (center : Q * Q * Q) (rotation : Q)
  : Rand (list Point * pyval) :=
  let '(x, y, z) := center in
  (* Main support pole (vertical) *)
  let pole_points := 80%Z in
  points <- for_in (range pole_points) (fun _ points =>
      dx <- normal np 0 0.03 ;;
      dy <- normal np 0 0.03 ;;
      pz <- uniform np 0 z ;;
      u <- uniform np 0 0.2 ;;
      ret (points ++ [mkPoint (x + dx) (y + dy) pz (0.6 + u)])) [] ;;
  (* Traffic light housing (main box) *)
  let housing_points := 60%Z in
  points <- for_in (range housing_points) (fun _ points =>
      local_x <- uniform np (-0.15) 0.15 ;;
      local_y <- uniform np (-0.08) 0.08 ;;
      dz <- uniform np (-0.2) 0.2 ;;
      let local_z := z + dz in
      let world_x := x + (local_x * cos np rotation - local_y * sin np rotation) in
      let world_y := y + (local_x * sin np rotation + local_y * cos np rotation) in
      u <- uniform np 0 0.2 ;;
      ret (points ++ [mkPoint world_x world_y local_z (0.8 + u)])) points ;;
  (* Mounting arm (horizontal) *)
  let arm_points := 40%Z in
  points <- for_in (range arm_points) (fun _ points =>
      local_x <- uniform np (-0.8) 0 ;;
      local_y <- normal np 0 0.03 ;;
      dz <- uniform np (-0.05) 0.05 ;;
      let local_z := z + dz in
      let world_x := x + (local_x * cos np rotation - local_y * sin np rotation) in
      let world_y := y + (local_x * sin np rotation + local_y * cos np rotation) in
      u <- uniform np 0 0.2 ;;
      ret (points ++ [mkPoint world_x world_y local_z (0.7 + u)])) points ;;
  (* Calculate bounding box *)
  let bbox := PDict [("center", py_vec (x, y, z));
                     ("size", py_vec (0.3, 0.2, 0.4));
                     ("rotation", PNum rotation)] in
  ret (points, bbox).

(** Vehicle dimensions and point density by type. *)
Definition vehicle_dimensions (vehicle_type : string) : Q * Q * Q * Z :=
  if String.eqb vehicle_type "sedan" then (4.5, 1.8, 1.4, 250%Z)
  else if String.eqb vehicle_type "suv" then (4.8, 2.0, 1.8, 300%Z)
  else if String.eqb vehicle_type "truck" then (6.5, 2.4, 2.5, 400%Z)
  else (* compact *) (3.8, 1.6, 1.2, 200%Z).

Definition _create_vehicle_detailed (center : Q * Q * Q) (rotation : Q)
  (vehicle_type : string) : Rand (list Point * pyval) :=
  let '(x, y, z) := center in
  let '(length, width, height, point_density) :=
    vehicle_dimensions vehicle_type in
  points <- for_in (range point_density) (fun _ points =>
      local_x <- uniform np (- length / 2) (length / 2) ;;
      local_y <- uniform np (- width / 2) (width / 2) ;;
      local_z <- uniform np 0 height ;;
      let world_x := x + (local_x * cos np rotation - local_y * sin np rotation) in
      let world_y := y + (local_x * sin np rotation + local_y * cos np rotation) in
      let world_z := z + local_z in
      (* Vary intensity based on surface (windshield vs metal) *)
      intensity <-
        (if Qgtb (Qabs local_x) (length * 0.3) && Qgtb local_z (height * 0.5)
         then u <- uniform np 0 0.1 ;; ret (0.9 + u)
         else u <- uniform np 0 0.3 ;; ret (0.4 + u)) ;;
      ret (points ++ [mkPoint world_x world_y world_z intensity])) [] ;;
  let bbox := PDict [("center", py_vec (x, y, z + height / 2));
                     ("size", py_vec (length, width, height));
                     ("rotation", PNum rotation)] in
  ret (points, bbox).

Definition _create_building (center : Q * Q * Q) (size : Q * Q * Q)
  : Rand (list Point * pyval) :=
  let '(x, y, z) := center in
  let '(length, width, height) := size in
  let num_points := py_int (length * width * height / 2) in
  points <- for_in (range num_points) (fun _ points =>
      dx <- uniform np (- length / 2) (length / 2) ;;
      dy <- uniform np (- width / 2) (width / 2) ;;
      pz <- uniform np 0 height ;;
      u <- uniform np 0 0.4 ;;
      ret (points ++ [mkPoint (x + dx) (y + dy) pz (0.3 + u)])) [] ;;
  let bbox := PDict [("center", py_vec (x, y, z));
                     ("size", py_vec size);
                     ("rotation", PNum 0)] in
  ret (points, bbox).

Definition _create_lamp_post (center : Q * Q * Q) : Rand (list Point * pyval) :=
  let '(x, y, z) := center in
  (* Pole *)
  points <- for_in (range 30) (fun _ points =>
      dx <- normal np 0 0.02 ;;
      dy <- normal np 0 0.02 ;;
      pz <- uniform np 0 4 ;;
      u <- uniform np 0 0.3 ;;
      ret (points ++ [mkPoint (x + dx) (y + dy) pz (0.5 + u)])) [] ;;
  (* Lamp housing at top *)
  points <- for_in (range 15) (fun _ points =>
      dx <- uniform np (-0.2) 0.2 ;;
      dy <- uniform np (-0.2) 0.2 ;;
      dz <- uniform np (-0.1) 0.1 ;;
      u <- uniform np 0 0.2 ;;
      ret (points ++ [mkPoint (x + dx) (y + dy) (4 + dz) (0.8 + u)])) points ;;
  let bbox := PDict [("center", py_vec (x, y, 2));
                     ("size", py_vec (0.4, 0.4, 4));
                     ("rotation", PNum 0)] in
  ret (points, bbox).

Definition _create_bench (center : Q * Q * Q) : Rand (list Point * pyval) :=
  let '(x, y, z) := center in
  points <- for_in (range 40) (fun _ points =>
      dx <- uniform np (-0.8) 0.8 ;;
      dy <- uniform np (-0.2) 0.2 ;;
      dz <- uniform np 0 0.4 ;;
      u <- uniform np 0 0.3 ;;
      ret (points ++ [mkPoint (x + dx) (y + dy) (z + dz) (0.4 + u)])) [] ;;
  let bbox := PDict [("center", py_vec (x, y, z + 0.2));
                     ("size", py_vec (1.6, 0.4, 0.4));
                     ("rotation", PNum 0)] in
  ret (points, bbox).

Definition _create_light_pole (center : Q * Q * Q) : Rand (list Point * pyval) :=
  let '(x, y, z) := center in
  (* Tall pole *)
  points <- for_in (range 50) (fun _ points =>
      dx <- normal np 0 0.03 ;;
      dy <- normal np 0 0.03 ;;
      pz <- uniform np 0 z ;;
      u <- uniform np 0 0.3 ;;
      ret (points ++ [mkPoint (x + dx) (y + dy) pz (0.5 + u)])) [] ;;
  (* Multiple light fixtures *)
  points <- for_in (range 3) (fun fixture points =>
      let fixture_angle := inject_Z fixture * 2 * pi np / 3 in
      let fx := x + 0.5 * cos np fixture_angle in
      let fy := y + 0.5 * sin np fixture_angle in
      for_in (range 10) (fun _ points =>
          dx <- uniform np (-0.1) 0.1 ;;
          dy <- uniform np (-0.1) 0.1 ;;
          dz <- uniform np (-0.2) 0.2 ;;
          u <- uniform np 0 0.1 ;;
          ret (points ++ [mkPoint (fx + dx) (fy + dy) (z + dz) (0.9 + u)]))
        points) points ;;
  let bbox := PDict [("center", py_vec (x, y, z / 2));
                     ("size", py_vec (1.0, 1.0, z));
                     ("rotation", PNum 0)] in
  ret (points, bbox).

Definition _create_road_with_markings (num_points : Z) : Rand (list Point) :=
  points <- for_in (range num_points) (fun _ points =>
      x <- uniform np (-20) 20 ;;
      y <- uniform np (-20) 20 ;;
      z <- uniform np (-0.05) 0.05 ;;
      (* Lane markings (higher intensity) *)
      intensity <-
        (if Qltb (Qabs x) 0.1 || Qltb (Qabs y) 0.1
         then u <- uniform np 0 0.2 ;; ret (0.8 + u)
         else u <- uniform np 0 0.15 ;; ret (0.15 + u)) ;;
      ret (points ++ [mkPoint x y z intensity])) [] ;;
  ret points.

Definition _create_urban_road_surface (num_points : Z) : Rand (list Point) :=
  points <- for_in (range num_points) (fun _ points =>
      x <- uniform np (-25) 25 ;;
      y <- uniform np (-25) 25 ;;
      (* Sidewalk areas (higher) *)
      zi <- (if Qgtb (Qabs x) 12
             then z <- uniform np 0.15 0.25 ;;
                  u <- uniform np 0 0.2 ;; ret (z, 0.4 + u)
             else z <- uniform np (-0.05) 0.05 ;;
                  u <- uniform np 0 0.15 ;; ret (z, 0.15 + u)) ;;
      let '(z, intensity) := zi in
      ret (points ++ [mkPoint x y z intensity])) [] ;;
  ret points.

Definition _create_parking_surface (num_points : Z) : Rand (list Point) :=
  points <- for_in (range num_points) (fun _ points =>
      x <- uniform np (-25) 25 ;;
      y <- uniform np (-25) 25 ;;
      z <- uniform np (-0.02) 0.02 ;;
      (* Parking space lines *)
      intensity <-
        (if Qltb (Qabs (x + 7.5)) 0.05 || Qltb (Qabs (x + 4.5)) 0.05 ||
            Qltb (Qabs (x + 1.5)) 0.05 || Qltb (Qabs (x - 1.5)) 0.05 ||
            Qltb (Qabs (x - 4.5)) 0.05 || Qltb (Qabs (x - 7.5)) 0.05
         then u <- uniform np 0 0.1 ;; ret (0.9 + u)
         else u <- uniform np 0 0.2 ;; ret (0.2 + u)) ;;
      ret (points ++ [mkPoint x y z intensity])) [] ;;
  ret points.

(** [points_array[:, k].min()] and [.max()] over a non-empty column. *)
Definition column_min (a : Q) (l : list Q) : Q := fold_left Qmin l a.
Definition column_max (a : Q) (l : list Q) : Q := fold_left Qmax l a.

(** [np.array([])] has one axis only: indexing it with [[:, 0]] raises
    [IndexError]. *)
Definition _calculate_bounds (points : list Point) : result Bounds :=
  match points with
  | [] => Err IndexError
  | p :: ps =>
      Ok {| x_min := column_min (px p) (map px ps);
            x_max := column_max (px p) (map px ps);
            y_min := column_min (py p) (map py ps);
            y_max := column_max (py p) (map py ps);
            z_min := column_min (pz p) (map pz ps);
            z_max := column_max (pz p) (map pz ps) |}
  end.

(** [len(points)] as stored under ["num_points"]. *)
Definition py_len (points : list Point) : pyval :=
  PNum (inject_Z (Z.of_nat (length points))).

Definition traffic_lights : list ((Q * Q * Q) * Q * string) :=
  [((8, -3, 4), 0, "traffic_light_north");
   ((-8, 3, 4), pi np, "traffic_light_south");
   ((3, 8, 4), - pi np / 2, "traffic_light_east");
   ((-3, -8, 4), pi np / 2, "traffic_light_west")].

Definition vehicles : list ((Q * Q * Q) * Q * string * string) :=
  [((5, -8, 0.8), 0, "sedan", "car_north_1");
   ((2, -8, 0.8), 0, "suv", "car_north_2");
   ((-5, 8, 0.8), pi np, "truck", "car_south_1");
   ((-2, 8, 0.8), pi np, "sedan", "car_south_2");
   ((8, 5, 0.8), - pi np / 2, "sedan", "car_east_1");
   ((8, -5, 0.8), pi np / 2, "suv", "car_west_1")].

(** The [return] statement shared by the three scene generators: the scene
    dictionary with its metadata.  [_calculate_bounds] raises on an empty
    list of points. *)
Definition build_scene (scene_type : string) (acc : Acc) : result Scene :=
  let '(all_points, all_labels, scene_objects) := acc in
  match _calculate_bounds all_points with
  | Err e => Err e
  | Ok bounds =>
      Ok {| scene_points := to_float32 np all_points;
            scene_labels := all_labels;
            scene_objects := scene_objects;
            scene_type := scene_type;
            metadata := {| total_points := length all_points;
                           num_objects := length scene_objects;
                           scene_bounds := bounds |} |}
  end.

(** The two object loops of [_generate_traffic_intersection]. *)
Definition traffic_intersection_objects : Rand Acc :=
  let scene_objects := [] in
  let all_points := [] in
  let all_labels := [] in
  (* Traffic lights at intersection corners *)
  acc <- for_in traffic_lights
    (fun '(pos, rotation, id) '(all_points, all_labels, scene_objects) =>
      pb <- _create_traffic_light_detailed pos rotation ;;
      let '(points, bbox) := pb in
      ret (all_points ++ points,
           all_labels ++ repeat id (length points),
           scene_objects ++
             [PDict [("type", PStr "traffic_light");
                     ("id", PStr id);
                     ("position", py_vec pos);
                     ("rotation", PNum rotation);
                     ("bounding_box", bbox);
                     ("num_points", py_len points)]]))
    (all_points, all_labels, scene_objects) ;;
  (* Vehicles waiting at intersection *)
  for_in vehicles
    (fun '(pos, rot, type, id) '(all_points, all_labels, scene_objects) =>
      pb <- _create_vehicle_detailed pos rot type ;;
      let '(points, bbox) := pb in
      ret (all_points ++ points,
           all_labels ++ repeat id (length points),
           scene_objects ++
             [PDict [("type", PStr "vehicle");
                     ("id", PStr id);
                     ("vehicle_type", PStr type);
                     ("position", py_vec pos);
                     ("rotation", PNum rot);
                     ("bounding_box", bbox);
                     ("num_points", py_len points)]]))
    acc.

(** [_generate_traffic_intersection] up to its [return]: the placed objects
    followed by the road surface. *)
Definition traffic_intersection_accumulate (num_points : Z) : Rand Acc :=
  acc <- traffic_intersection_objects ;;
  let '(all_points, all_labels, scene_objects) := acc in
  (* Road surface with lane markings *)
  let remaining_points := (num_points - Z.of_nat (length all_points))%Z in
  road_points <- _create_road_with_markings remaining_points ;;
  ret (all_points ++ road_points,
       all_labels ++ repeat "road_surface" (length road_points),
       scene_objects).

Definition _generate_traffic_intersection (num_points : Z)
  : Rand (result Scene) :=
  acc <- traffic_intersection_accumulate num_points ;;
  ret (build_scene "traffic_intersection" acc).

Definition buildings : list ((Q * Q * Q) * (Q * Q * Q) * string) :=
  [((15, 0, 6), (8, 20, 12), "building_east");
   ((-15, 0, 6), (8, 20, 12), "building_west");
   ((0, 25, 4), (30, 6, 8), "building_north")].

Definition furniture : list ((Q * Q * Q) * furniture_kind * string) :=
  [((6, -5, 1), lamp_post, "lamp_1");
   ((6, 0, 1), lamp_post, "lamp_2");
   ((6, 5, 1), lamp_post, "lamp_3");
   ((-6, -5, 1), lamp_post, "lamp_4");
   ((-6, 0, 1), lamp_post, "lamp_5");
   ((-6, 5, 1), lamp_post, "lamp_6");
   ((8, -8, 0.4), bench, "bench_1");
   ((-8, 8, 0.4), bench, "bench_2")].

Definition parked_cars : list ((Q * Q * Q) * Q * string) :=
  [((10, -10, 0.8), 0, "parked_car_1");
   ((10, -5, 0.8), 0, "parked_car_2");
   ((-10, 10, 0.8), pi np, "parked_car_3")].

(** The three object loops of [_generate_urban_street]. *)
Definition urban_street_objects : Rand Acc :=
  let scene_objects := [] in
  let all_points := [] in
  let all_labels := [] in
  (* Buildings along the street *)
  acc <- for_in buildings
    (fun '(pos, size, id) '(all_points, all_labels, scene_objects) =>
      pb <- _create_building pos size ;;
      let '(points, bbox) := pb in
      ret (all_points ++ points,
           all_labels ++ repeat id (length points),
           scene_objects ++
             [PDict [("type", PStr "building");
                     ("id", PStr id);
                     ("position", py_vec pos);
                     ("size", py_vec size);
                     ("bounding_box", bbox);
                     ("num_points", py_len points)]]))
    (all_points, all_labels, scene_objects) ;;
  (* Street furniture *)
  acc <- for_in furniture
    (fun '(pos, type, id) '(all_points, all_labels, scene_objects) =>
      pb <- match type with
            | lamp_post => _create_lamp_post pos
            | bench => _create_bench pos
            end ;;
      let '(points, bbox) := pb in
      ret (all_points ++ points,
           all_labels ++ repeat id (length points),
           scene_objects ++
             [PDict [("type", PStr "street_furniture");
                     ("id", PStr id);
                     ("furniture_type", PStr (furniture_kind_str type));
                     ("position", py_vec pos);
                     ("bounding_box", bbox);
                     ("num_points", py_len points)]]))
    acc ;;
  (* Parked cars *)
  for_in parked_cars
    (fun '(pos, rot, id) '(all_points, all_labels, scene_objects) =>
      pb <- _create_vehicle_detailed pos rot "sedan" ;;
      let '(points, bbox) := pb in
      ret (all_points ++ points,
           all_labels ++ repeat id (length points),
           scene_objects ++
             [PDict [("type", PStr "parked_vehicle");
                     ("id", PStr id);
                     ("position", py_vec pos);
                     ("rotation", PNum rot);
                     ("bounding_box", bbox);
                     ("num_points", py_len points)]]))
    acc.

Definition urban_street_accumulate (num_points : Z) : Rand Acc :=
  acc <- urban_street_objects ;;
  let '(all_points, all_labels, scene_objects) := acc in
  (* Road and sidewalks *)
  let remaining_points := (num_points - Z.of_nat (length all_points))%Z in
  road_points <- _create_urban_road_surface remaining_points ;;
  ret (all_points ++ road_points,
       all_labels ++ repeat "road_surface" (length road_points),
       scene_objects).

Definition _generate_urban_street (num_points : Z) : Rand (result Scene) :=
  acc <- urban_street_accumulate num_points ;;
  ret (build_scene "urban_street" acc).

Definition vehicle_types : list string := ["sedan"; "suv"; "truck"; "compact"].

Definition infrastructure : list ((Q * Q * Q) * string * string) :=
  [((0, -20, 3), "light_pole", "pole_1");
   ((10, -10, 3), "light_pole", "pole_2");
   ((-10, -10, 3), "light_pole", "pole_3");
   ((10, 10, 3), "light_pole", "pole_4");
   ((-10, 10, 3), "light_pole", "pole_5")].

(** One parking space of the grid: filled with probability 0.75. *)
Definition parking_space (rows spaces_per_row row space : Z) (acc : Acc)
  : Rand Acc :=
  let '(all_points, all_labels, scene_objects) := acc in
  r <- random np ;;
  if Qltb r 0.75 then
    let x := (inject_Z space - inject_Z spaces_per_row / 2) * 3 in
    let y := (inject_Z row - inject_Z rows / 2) * 8 in
    let z := 0.8 in
    vehicle_type <- choice np vehicle_types ;;
    let vehicle_id :=
      ("parked_car_r" ++ str_of_Z row ++ "_s" ++ str_of_Z space)%string in
    pb <- _create_vehicle_detailed (x, y, z) 0 vehicle_type ;;
    let '(points, bbox) := pb in
    ret (all_points ++ points,
         all_labels ++ repeat vehicle_id (length points),
         scene_objects ++
           [PDict [("type", PStr "parked_vehicle");
                   ("id", PStr vehicle_id);
                   ("vehicle_type", PStr vehicle_type);
                   ("position", py_vec (x, y, z));
                   ("rotation", PNum 0);
                   ("bounding_box", bbox);
                   ("num_points", py_len points)]])
  else ret acc.

(** The vehicle grid and the infrastructure loop of [_generate_parking_lot]. *)
Definition parking_lot_objects : Rand Acc :=
  let scene_objects := [] in
  let all_points := [] in
  let all_labels := [] in
  (* Parking lot with organized vehicle placement *)
  let rows := 4%Z in
  let spaces_per_row := 6%Z in
  acc <- for_in (range rows) (fun row acc =>
      for_in (range spaces_per_row) (fun space acc =>
          parking_space rows spaces_per_row row space acc) acc)
    (all_points, all_labels, scene_objects) ;;
  (* Parking lot infrastructure *)
  for_in infrastructure
    (fun '(pos, type, id) '(all_points, all_labels, scene_objects) =>
      pb <- _create_light_pole pos ;;
      let '(points, bbox) := pb in
      ret (all_points ++ points,
           all_labels ++ repeat id (length points),
           scene_objects ++
             [PDict [("type", PStr "infrastructure");
                     ("id", PStr id);
                     ("infrastructure_type", PStr type);
                     ("position", py_vec pos);
                     ("bounding_box", bbox);
                     ("num_points", py_len points)]]))
    acc.

Definition parking_lot_accumulate (num_points : Z) : Rand Acc :=
  acc <- parking_lot_objects ;;
  let '(all_points, all_labels, scene_objects) := acc in
  (* Parking lot surface *)
  let remaining_points := (num_points - Z.of_nat (length all_points))%Z in
  surface_points <- _create_parking_surface remaining_points ;;
  ret (all_points ++ surface_points,
       all_labels ++ repeat "parking_surface" (length surface_points),
       scene_objects).

Definition _generate_parking_lot (num_points : Z) : Rand (result Scene) :=
  acc <- parking_lot_accumulate num_points ;;
  ret (build_scene "parking_lot" acc).

(** The class defines no method [_generate_random_scene]: the attribute
    lookup in the last branch raises [AttributeError]. *)
Definition _generate_preset_data (preset_name : string) (num_points : Z)
  : Rand (result Scene) :=
  if String.eqb preset_name "traffic_scene" then
    _generate_traffic_intersection num_points
  else if String.eqb preset_name "urban_street" then
    _generate_urban_street num_points
  else if String.eqb preset_name "parking_lot" then
    _generate_parking_lot num_points
  else
    ret (Err (AttributeError "_generate_random_scene")).

(** [data['points'].tolist()] *)
Definition tolist (points : list Point) : pyval :=
  PList (map (fun p => PList [PNum (px p); PNum (py p); PNum (pz p);
                              PNum (intensity p)]) points).

(** The ["metadata"] dictionary of a scene. *)
Definition metadata_dict (m : Metadata) : pyval :=
  let b := scene_bounds m in
  PDict [("total_points", PNum (inject_Z (Z.of_nat (total_points m))));
         ("num_objects", PNum (inject_Z (Z.of_nat (num_objects m))));
         ("scene_bounds",
          PDict [("x_min", PNum (x_min b)); ("x_max", PNum (x_max b));
                 ("y_min", PNum (y_min b)); ("y_max", PNum (y_max b));
                 ("z_min", PNum (z_min b)); ("z_max", PNum (z_max b))])].

(** The dictionary that [_save_as_json] passes to [json.dump]. *)
Definition output_data (data : Scene) : pyval :=
  PDict [("points", tolist (scene_points data));
         ("labels", PList (map PStr (scene_labels data)));
         ("scene_objects", PList (scene_objects data));
         ("metadata", metadata_dict (metadata data))].

Variable js : JsonLib.

Definition _save_as_json (output_dir : string) (data : Scene)
  (filename : string) (fs : Files (text js)) : Files (text js) :=
  write_file (output_dir ++ "/" ++ filename)%string
             (json_dump js (output_data data)) fs.

(** Reading a saved document back: [json.load(open(path))]. *)
Definition load_json (path : string) (fs : Files (text js)) : option pyval :=
  match read_file path fs with
  | Some t => json_load js t
  | None => None
  end.

End WithNumPy.
End HighPerformanceSampleGenerator.

(** ** A concrete numeric library, for evaluating the model

    A linear congruential generator over [Z]; a draw is scaled from the
    residue of the state modulo 1000.  The trigonometric functions are
    truncated Taylor polynomials and the float32 cast is the identity. *)
Module Demo.

Definition next (s : Z) : Z := ((1103515245 * s + 12345) mod 2147483648)%Z.

Definition unit_draw (s : Z) : Q := inject_Z (s mod 1000) / 1000.

Definition demo_np : NumPy :=
  {| rng := Z;
     uniform := fun lo hi s => (lo + (hi - lo) * unit_draw s, next s);
     normal := fun loc scale s => (loc + scale * (2 * unit_draw s - 1), next s);
     random := fun s => (unit_draw s, next s);
     choice := fun l s =>
       (nth (Z.to_nat (s mod Z.of_nat (length l))) l ""%string, next s);
     cos := fun a => 1 - a * a / 2;
     sin := fun a => a - a * a * a / 6;
     pi := 3.14159265;
     float32 := fun q => q;
     time_time := 1700000000 |}.

(** A store that keeps the dumped value itself. *)
Definition demo_json : JsonLib :=
  {| text := pyval; json_dump := fun v => v; json_load := fun t => Some t |}.

(** A scene with a single object of one point. *)
Definition demo_scene : Scene :=
  {| scene_points := [mkPoint 1 2 0.5 0.7];
     scene_labels := ["pole_1"];
     scene_objects :=
       [PDict [("type", PStr "infrastructure"); ("id", PStr "pole_1");
               ("num_points", PNum 1)]];
     scene_type := "parking_lot";
     metadata := {| total_points := 1; num_objects := 1;
                    scene_bounds := mkBounds 1 1 2 2 0.5 0.5 |} |}.

End Demo.

(** * Vocabulary of the properties *)

Definition intensity_ok (p : Point) : Prop :=
  0 <= intensity p /\ intensity p <= 1.

(** What every sampled point satisfies: its intensity is in range as soon as
    the uniform draws are. *)
Definition sampled (np : NumPy) (p : Point) : Prop :=
  uniform_in_range np -> intensity_ok p.

(** A sampler's output: [k] points with intensities in range. *)
Definition sampler_spec (np : NumPy) (k : nat) (pts : list Point) : Prop :=
  length pts = k /\ Forall (sampled np) pts.

(** The bounding boxes as functions of the placement alone. *)
Definition traffic_light_bbox (center : Q * Q * Q) (rotation : Q) : pyval :=
  PDict [("center", py_vec center); ("size", py_vec (0.3, 0.2, 0.4));
         ("rotation", PNum rotation)].

Definition vehicle_bbox (center : Q * Q * Q) (rotation : Q)
  (vehicle_type : string) : pyval :=
  let '(x, y, z) := center in
  let '(length, width, height, _) :=
    HighPerformanceSampleGenerator.vehicle_dimensions vehicle_type in
  PDict [("center", py_vec (x, y, z + height / 2));
         ("size", py_vec (length, width, height));
         ("rotation", PNum rotation)].

Definition vehicle_density (vehicle_type : string) : nat :=
  Z.to_nat (snd (HighPerformanceSampleGenerator.vehicle_dimensions vehicle_type)).

Definition building_bbox (center size : Q * Q * Q) : pyval :=
  PDict [("center", py_vec center); ("size", py_vec size);
         ("rotation", PNum 0)].

Definition building_density (size : Q * Q * Q) : nat :=
  let '(length, width, height) := size in
  Z.to_nat (py_int (length * width * height / 2)).

Definition lamp_post_bbox (center : Q * Q * Q) : pyval :=
  let '(x, y, z) := center in
  PDict [("center", py_vec (x, y, 2)); ("size", py_vec (0.4, 0.4, 4));
         ("rotation", PNum 0)].

Definition bench_bbox (center : Q * Q * Q) : pyval :=
  let '(x, y, z) := center in
  PDict [("center", py_vec (x, y, z + 0.2)); ("size", py_vec (1.6, 0.4, 0.4));
         ("rotation", PNum 0)].

Definition light_pole_bbox (center : Q * Q * Q) : pyval :=
  let '(x, y, z) := center in
  PDict [("center", py_vec (x, y, z / 2)); ("size", py_vec (1.0, 1.0, z));
         ("rotation", PNum 0)].

(** [len(points)] of an object with [k] points. *)
Definition py_count (k : nat) : pyval := PNum (inject_Z (Z.of_nat k)).

(** A sampler that returns [k] points with the bounding box [bbox]. *)
Definition object_spec (np : NumPy) (k : nat) (bbox : pyval)
  (m : M (rng np) (list Point * pyval)) : Prop :=
  forall s, sampler_spec np k (fst (fst (m s))) /\ snd (fst (m s)) = bbox.

(** The scene-object dictionaries of the fixed layouts. *)
Definition traffic_light_object (tl : (Q * Q * Q) * Q * string) : pyval :=
  let '(pos, rotation, id) := tl in
  PDict [("type", PStr "traffic_light"); ("id", PStr id);
         ("position", py_vec pos); ("rotation", PNum rotation);
         ("bounding_box", traffic_light_bbox pos rotation);
         ("num_points", py_count 180)].

Definition vehicle_object (v : (Q * Q * Q) * Q * string * string) : pyval :=
  let '(pos, rot, type, id) := v in
  PDict [("type", PStr "vehicle"); ("id", PStr id);
         ("vehicle_type", PStr type);
         ("position", py_vec pos); ("rotation", PNum rot);
         ("bounding_box", vehicle_bbox pos rot type);
         ("num_points", py_count (vehicle_density type))].

Definition building_object (b : (Q * Q * Q) * (Q * Q * Q) * string) : pyval :=
  let '(pos, size, id) := b in
  PDict [("type", PStr "building"); ("id", PStr id);
         ("position", py_vec pos); ("size", py_vec size);
         ("bounding_box", building_bbox pos size);
         ("num_points", py_count (building_density size))].

Definition furniture_density (k : furniture_kind) : nat :=
  match k with lamp_post => 45 | bench => 40 end.

Definition furniture_bbox (pos : Q * Q * Q) (k : furniture_kind) : pyval :=
  match k with lamp_post => lamp_post_bbox pos | bench => bench_bbox pos end.

Definition furniture_object (f : (Q * Q * Q) * furniture_kind * string)
  : pyval :=
  let '(pos, type, id) := f in
  PDict [("type", PStr "street_furniture"); ("id", PStr id);
         ("furniture_type", PStr (furniture_kind_str type));
         ("position", py_vec pos);
         ("bounding_box", furniture_bbox pos type);
         ("num_points", py_count (furniture_density type))].

Definition parked_car_object (c : (Q * Q * Q) * Q * string) : pyval :=
  let '(pos, rot, id) := c in
  PDict [("type", PStr "parked_vehicle"); ("id", PStr id);
         ("position", py_vec pos); ("rotation", PNum rot);
         ("bounding_box", vehicle_bbox pos rot "sedan");
         ("num_points", py_count (vehicle_density "sedan"))].

Definition infrastructure_object (i : (Q * Q * Q) * string * string) : pyval :=
  let '(pos, type, id) := i in
  PDict [("type", PStr "infrastructure"); ("id", PStr id);
         ("infrastructure_type", PStr type);
         ("position", py_vec pos);
         ("bounding_box", light_pole_bbox pos);
         ("num_points", py_count 80)].

(** Objects and object labels of the traffic intersection. *)
Definition traffic_intersection_scene_objects (np : NumPy) : list pyval :=
  map traffic_light_object (HighPerformanceSampleGenerator.traffic_lights np) ++
  map vehicle_object (HighPerformanceSampleGenerator.vehicles np).

Definition traffic_intersection_object_labels (np : NumPy) : list string :=
  concat (map (fun tl => repeat (snd tl) 180)
              (HighPerformanceSampleGenerator.traffic_lights np)) ++
  concat (map (fun v => repeat (snd v) (vehicle_density (snd (fst v))))
              (HighPerformanceSampleGenerator.vehicles np)).

(** Objects and object labels of the urban street. *)
Definition urban_street_scene_objects (np : NumPy) : list pyval :=
  map building_object HighPerformanceSampleGenerator.buildings ++
  map furniture_object HighPerformanceSampleGenerator.furniture ++
  map parked_car_object (HighPerformanceSampleGenerator.parked_cars np).

Definition urban_street_object_labels (np : NumPy) : list string :=
  concat (map (fun b => repeat (snd b) (building_density (snd (fst b))))
              HighPerformanceSampleGenerator.buildings) ++
  concat (map (fun f => repeat (snd f) (furniture_density (snd (fst f))))
              HighPerformanceSampleGenerator.furniture) ++
  concat (map (fun c => repeat (snd c) (vehicle_density "sedan"))
              (HighPerformanceSampleGenerator.parked_cars np)).

(** Accumulators whose points have intensities in range and whose labels
    are aligned with the points. *)
Definition acc_ok (np : NumPy) (acc : Acc) : Prop :=
  Forall (sampled np) (fst (fst acc)) /\
  length (snd (fst acc)) = length (fst (fst acc)).

(** Scene bounds: ordered on every axis, and containing a point. *)
Definition bounds_ordered (b : Bounds) : Prop :=
  x_min b <= x_max b /\ y_min b <= y_max b /\ z_min b <= z_max b.

Definition in_bounds (b : Bounds) (p : Point) : Prop :=
  (x_min b <= px p /\ px p <= x_max b) /\
  (y_min b <= py p /\ py p <= y_max b) /\
  (z_min b <= pz p /\ pz p <= z_max b).

(** The presets that [_generate_preset_data] knows, with the object loops,
    surface filler, surface label and scene type of each. *)
Definition presets : list string :=
  ["traffic_scene"; "urban_street"; "parking_lot"].

Definition objects_phase (np : NumPy) (preset : string) : M (rng np) Acc :=
  if String.eqb preset "traffic_scene" then
    HighPerformanceSampleGenerator.traffic_intersection_objects np
  else if String.eqb preset "urban_street" then
    HighPerformanceSampleGenerator.urban_street_objects np
  else HighPerformanceSampleGenerator.parking_lot_objects np.

Definition surface_filler (np : NumPy) (preset : string)
  : Z -> M (rng np) (list Point) :=
  if String.eqb preset "traffic_scene" then
    HighPerformanceSampleGenerator._create_road_with_markings np
  else if String.eqb preset "urban_street" then
    HighPerformanceSampleGenerator._create_urban_road_surface np
  else HighPerformanceSampleGenerator._create_parking_surface np.

Definition surface_label (preset : string) : string :=
  if String.eqb preset "parking_lot" then "parking_surface"
  else "road_surface".

Definition scene_type_of (preset : string) : string :=
  if String.eqb preset "traffic_scene" then "traffic_intersection"
  else preset.

(** The scene assembled from the placed objects [(ap, al, so)], the surface
    points and the bounds [b]. *)
Definition composed_scene (np : NumPy) (preset : string) (ap : list Point)
  (al : list string) (so : list pyval) (surface : list Point) (b : Bounds)
  : Scene :=
  {| scene_points := to_float32 np (ap ++ surface);
     scene_labels := al ++ repeat (surface_label preset) (length surface);
     scene_objects := so;
     scene_type := scene_type_of preset;
     metadata := {| total_points := length (ap ++ surface);
                    num_objects := length so;
                    scene_bounds := b |} |}.

(** Labels of the objects placed by [PointCloudProcessor._create_traffic_scene]. *)
Definition traffic_scene_object_labels : list string :=
  concat (map (fun ip => repeat ("traffic_light_" ++ str_of_Z (fst ip + 1))%string
                                198)
              (enumerate PointCloudProcessor.traffic_light_positions)) ++
  concat (map (fun ip => repeat ("car_" ++ str_of_Z (fst ip + 1))%string 300)
              (enumerate PointCloudProcessor.car_positions)).

(** The points and labels of the placed objects, before the surface fill. *)
Definition placed_points (np : NumPy) (preset : string) (s : rng np)
  : list Point := fst (fst (fst (objects_phase np preset s))).

Definition placed_labels (np : NumPy) (preset : string) (s : rng np)
  : list string := snd (fst (fst (objects_phase np preset s))).

(** The surface points drawn after the objects, for the rest of the budget. *)
Definition surface_points (np : NumPy) (preset : string) (num_points : Z)
  (s : rng np) : list Point :=
  fst (surface_filler np preset
         (num_points - Z.of_nat (length (placed_points np preset s)))%Z
         (snd (objects_phase np preset s))).

(** The point budget of a generated scene: the surface filler is called with
    the remainder of the budget; the scene has [num_points] points when the
    objects fit, and the filler adds nothing when they do not. *)
Definition budget_respected (np : NumPy) (preset : string) (num_points : Z)
  (s : rng np) : Prop :=
  let footprint := Z.of_nat (length (placed_points np preset s)) in
  let surface := surface_points np preset num_points s in
  exists sc,
    fst (HighPerformanceSampleGenerator._generate_preset_data
           np preset num_points s) = Ok sc /\
    scene_points sc = to_float32 np (placed_points np preset s ++ surface) /\
    total_points (metadata sc) = length (scene_points sc) /\
    Z.of_nat (length surface) = Z.max 0 (num_points - footprint) /\
    ((footprint <= num_points)%Z ->
       Z.of_nat (total_points (metadata sc)) = num_points) /\
    ((num_points < footprint)%Z ->
       surface = [] /\ Z.of_nat (total_points (metadata sc)) = footprint).

(** The placed objects reach the caller whole. *)
Definition objects_kept (np : NumPy) (preset : string) (num_points : Z)
  (s : rng np) : Prop :=
  exists sc,
    fst (HighPerformanceSampleGenerator._generate_preset_data
           np preset num_points s) = Ok sc /\
    scene_points sc = to_float32 np (placed_points np preset s) /\
    scene_labels sc = placed_labels np preset s /\
    total_points (metadata sc) = length (placed_points np preset s) /\
    (num_points < Z.of_nat (length (scene_points sc)))%Z.

(** Intensities of everything a generation call samples, in both classes. *)
Definition intensities_in_range (np : NumPy) (preset : string)
  (num_points : Z) (s : rng np) : Prop :=
  (exists all_points sc,
     fst (HighPerformanceSampleGenerator._generate_preset_data
            np preset num_points s) = Ok sc /\
     scene_points sc = to_float32 np all_points /\
     Forall intensity_ok all_points) /\
  Forall intensity_ok
    (fst (fst (PointCloudProcessor._create_traffic_scene_accumulate
                 np num_points s))).

(** A float32 cast that is monotone and exact at 0 and 1. *)
Definition float32_monotone (np : NumPy) : Prop :=
  (forall a b : Q, a <= b -> float32 np a <= float32 np b) /\
  float32 np 0 == 0 /\ float32 np 1 == 1.

(** The bounds stored in the metadata of a generated scene are those of its
    accumulated points. *)
Definition bounds_hold (np : NumPy) (preset : string) (num_points : Z)
  (s : rng np) : Prop :=
  exists all_points sc,
    fst (HighPerformanceSampleGenerator._generate_preset_data
           np preset num_points s) = Ok sc /\
    scene_points sc = to_float32 np all_points /\
    all_points <> [] /\
    HighPerformanceSampleGenerator._calculate_bounds all_points =
      Ok (scene_bounds (metadata sc)) /\
    bounds_ordered (scene_bounds (metadata sc)) /\
    Forall (in_bounds (scene_bounds (metadata sc))) all_points.

(** Number of scene objects whose ["type"] is [ty]. *)
Definition has_type (ty : string) (obj : pyval) : bool :=
  match py_get "type" obj with
  | Some (PStr t) => String.eqb t ty
  | _ => false
  end.

Definition count_type (ty : string) (objs : list pyval) : nat :=
  length (filter (has_type ty) objs).

(** The ["id"] entries of a list of scene objects. *)
Definition object_ids (objs : list pyval) : list (option pyval) :=
  map (py_get "id") objs.

(** The traffic intersection generated with a budget of 12000 points. *)
Definition traffic_scene_12000 (np : NumPy) (s : rng np) : Prop :=
  exists sc,
    fst (HighPerformanceSampleGenerator._generate_preset_data
           np "traffic_scene" 12000 s) = Ok sc /\
    count_type "traffic_light" (scene_objects sc) = 4%nat /\
    count_type "vehicle" (scene_objects sc) = 6%nat /\
    length (scene_objects sc) = 10%nat /\
    num_objects (metadata sc) = 10%nat /\
    NoDup (object_ids (scene_objects sc)) /\
    Forall (fun o => exists id, py_get "id" o = Some (PStr id))
           (scene_objects sc) /\
    scene_labels sc =
      traffic_intersection_object_labels np ++ repeat "road_surface" (Z.to_nat 9530) /\
    ~ In "road_surface" (traffic_intersection_object_labels np) /\
    length (traffic_intersection_object_labels np) = 2470%nat /\
    total_points (metadata sc) = Z.to_nat 12000 /\
    length (scene_points sc) = Z.to_nat 12000.

(** The table that [PointCloudProcessor] returns for the same preset and
    budget: no scene objects; labels for three traffic lights and six cars,
    then the fill, labelled ["road"]. *)
Definition table_traffic_scene_12000 (np : NumPy) (s : rng np) : Prop :=
  exists t,
    fst (PointCloudProcessor.generate_sample_data
           np "traffic_scene" 12000 s) = Ok t /\
    num_rows t = Z.to_nat 12000 /\
    col_label t =
      repeat "traffic_light_1" 198 ++ repeat "traffic_light_2" 198 ++
      repeat "traffic_light_3" 198 ++
      repeat "car_1" 300 ++ repeat "car_2" 300 ++ repeat "car_3" 300 ++
      repeat "car_4" 300 ++ repeat "car_5" 300 ++ repeat "car_6" 300 ++
      repeat "road" (Z.to_nat 9606).

(** The ["scene_bounds"] dictionary of the metadata. *)
Definition bounds_dict (b : Bounds) : pyval :=
  PDict [("x_min", PNum (x_min b)); ("x_max", PNum (x_max b));
         ("y_min", PNum (y_min b)); ("y_max", PNum (y_max b));
         ("z_min", PNum (z_min b)); ("z_max", PNum (z_max b))].

(** What a reloaded JSON document holds of the scene it was saved from. *)
Definition saved_document_faithful (js : JsonLib) (output_dir : string)
  (data : Scene) (filename : string) (fs : Files (text js)) : Prop :=
  exists doc m,
    HighPerformanceSampleGenerator.load_json js
      (output_dir ++ "/" ++ filename)%string
      (HighPerformanceSampleGenerator._save_as_json js output_dir data
         filename fs) = Some doc /\
    py_get "scene_objects" doc = Some (PList (scene_objects data)) /\
    py_get "metadata" doc = Some m /\
    py_get "total_points" m = Some (py_count (total_points (metadata data))) /\
    py_get "num_objects" m = Some (py_count (num_objects (metadata data))) /\
    py_get "scene_bounds" m =
      Some (bounds_dict (scene_bounds (metadata data))) /\
    py_get "points" doc =
      Some (HighPerformanceSampleGenerator.tolist (scene_points data)) /\
    py_get "labels" doc = Some (PList (map PStr (scene_labels data))) /\
    py_get "scene_type" doc = None.

(** Bounding boxes of the six object samplers are those of the geometry. *)
Definition bboxes_from_geometry (np : NumPy) : Prop :=
  forall (center size : Q * Q * Q) (rotation : Q) (vehicle_type : string)
         (s : rng np),
    snd (fst (HighPerformanceSampleGenerator._create_traffic_light_detailed
                np center rotation s)) = traffic_light_bbox center rotation /\
    snd (fst (HighPerformanceSampleGenerator._create_vehicle_detailed
                np center rotation vehicle_type s)) =
      vehicle_bbox center rotation vehicle_type /\
    snd (fst (HighPerformanceSampleGenerator._create_building
                np center size s)) = building_bbox center size /\
    snd (fst (HighPerformanceSampleGenerator._create_lamp_post np center s)) =
      lamp_post_bbox center /\
    snd (fst (HighPerformanceSampleGenerator._create_bench np center s)) =
      bench_bbox center /\
    snd (fst (HighPerformanceSampleGenerator._create_light_pole np center s)) =
      light_pole_bbox center.

(** Two runs of a fixed-layout preset, from any two states of the random
    generator and with any budgets, list the same scene objects. *)
Definition same_objects_across_runs (np : NumPy) (preset : string)
  (objs : list pyval) : Prop :=
  forall (n1 n2 : Z) (s1 s2 : rng np),
  exists sc1 sc2,
    fst (HighPerformanceSampleGenerator._generate_preset_data
           np preset n1 s1) = Ok sc1 /\
    fst (HighPerformanceSampleGenerator._generate_preset_data
           np preset n2 s2) = Ok sc2 /\
    scene_objects sc1 = objs /\ scene_objects sc2 = objs.

(** * The exporters and the command line *)

(** The methods of [HighPerformanceSampleGenerator] that write files, and
    [main].  A file is identified by the text of its path; the directory
    that [__init__] creates is not modelled.  Strings are byte strings in
    UTF-8, copied from the source file as it is. *)

(** The line feed that ends every line written. *)
Definition nl : string := String (ascii_of_nat 10) EmptyString.

(** The PyArrow table written by [_save_as_parquet]. *)
Record ParquetTable : Type := mkParquetTable {
  pq_x : list Q;
  pq_y : list Q;
  pq_z : list Q;
  pq_intensity : list Q;
  pq_label : list string
}.

(** What the file layer does with a value, external to the repository:
    the bytes that [pq.write_table] writes for a table, the bytes of a text
    file, and the text of a float32 in an f-string. *)
Record IOLib (js : JsonLib) : Type := mkIOLib {
  parquet_bytes : ParquetTable -> text js;
  text_bytes : string -> text js;
  float32_str : Q -> string
}.

(** The files on disk and the lines printed so far, oldest line first. *)
Record World (js : JsonLib) : Type := mkWorld {
  files : Files (text js);
  stdout : list string
}.

(** A step that draws random numbers, changes the world and may raise: an
    exception keeps the effects that came before it. *)
Definition IO (np : NumPy) (js : JsonLib) (A : Type) : Type :=
  rng np * World js -> result A * (rng np * World js).

Definition retE {np : NumPy} {js : JsonLib} {A : Type} (a : A) : IO np js A :=
  fun st => (Ok a, st).

Definition bindE {np : NumPy} {js : JsonLib} {A B : Type} (m : IO np js A)
  (k : A -> IO np js B) : IO np js B :=
  fun st =>
    match m st with
    | (Ok a, st') => k a st'
    | (Err e, st') => (Err e, st')
    end.

Declare Scope io_scope.
Delimit Scope io_scope with io.
Notation "x <-- m ;; k" := (bindE m (fun x => k))
  (at level 61, m at next level, right associativity) : io_scope.
Notation "m ;;; k" := (bindE m (fun _ => k))
  (at level 61, right associativity) : io_scope.

(** [for a in l: body(a)] *)
Fixpoint for_each {np : NumPy} {js : JsonLib} {A : Type} (l : list A)
  (body : A -> IO np js unit) : IO np js unit :=
  match l with
  | [] => retE tt
  | a :: l' => bindE (body a) (fun _ => for_each l' body)
  end.

(** A computation on the random generator that may raise. *)
Definition draw {np : NumPy} {js : JsonLib} {A : Type}
  (m : M (rng np) (result A)) : IO np js A :=
  fun st => let (r, s') := m (fst st) in (r, (s', snd st)).

(** [print(line)] *)
Definition print {np : NumPy} {js : JsonLib} (line : string) : IO np js unit :=
  fun st =>
    (Ok tt, (fst st, {| files := files (snd st);
                        stdout := stdout (snd st) ++ [line] |})).

(** A change of the files that may raise before anything is written. *)
Definition write {np : NumPy} {js : JsonLib}
  (f : Files (text js) -> result (Files (text js))) : IO np js unit :=
  fun st =>
    match f (files (snd st)) with
    | Ok fs => (Ok tt, (fst st, {| files := fs; stdout := stdout (snd st) |}))
    | Err e => (Err e, st)
    end.

(** [f"{n:,}"]: the decimal digits in groups of three. *)
Fixpoint group_thousands (digits_rev : list ascii) (k : nat) : list ascii :=
  match digits_rev with
  | [] => []
  | d :: rest =>
      match k, rest with
      | 2%nat, _ :: _ => d :: ","%char :: group_thousands rest 0
      | _, _ => d :: group_thousands rest (S k)
      end
  end.

Definition format_thousands (n : Z) : string :=
  let digits := list_ascii_of_string (str_of_Z (Z.abs n)) in
  let grouped := string_of_list_ascii (rev (group_thousands (rev digits) 0)) in
  if (n <? 0)%Z then ("-" ++ grouped)%string else grouped.

(** The lines of a text, cut at each line feed; a last line without line
    feed counts when it is not empty. *)
Fixpoint lines_from (s : string) (current : string) : list string :=
  match s with
  | EmptyString =>
      match current with EmptyString => [] | _ => [current] end
  | String c s' =>
      if Ascii.eqb c (ascii_of_nat 10) then current :: lines_from s' ""
      else lines_from s' (current ++ String c "")
  end.

Definition splitlines (s : string) : list string := lines_from s "".

Fixpoint has_line_feed (s : string) : bool :=
  match s with
  | EmptyString => false
  | String c s' => Ascii.eqb c (ascii_of_nat 10) || has_line_feed s'
  end.

Module SampleGeneratorIO.
Section WithLibraries.
Variable np : NumPy.
Variable js : JsonLib.
Variable io : IOLib js.
Local Open Scope io_scope.

(** [self.output_dir / filename] for a relative file name; [output_dir] is
    the text of [self.output_dir]. *)
Definition path_of (output_dir filename : string) : string :=
  (output_dir ++ "/" ++ filename)%string.

(** The table of [_save_as_parquet].  The points of a scene are a float32
    array: a one-axis array when there is no point, so that
    [data['points'][:, 0]] raises [IndexError]; [pa.table] raises
    [ArrowInvalid] when the label column differs in length. *)
Definition parquet_table (data : Scene) : result ParquetTable :=
  match scene_points data with
  | [] => Err IndexError
  | _ :: _ =>
      if Nat.eqb (length (scene_labels data)) (length (scene_points data))
      then Ok {| pq_x := map px (scene_points data);
                 pq_y := map py (scene_points data);
                 pq_z := map pz (scene_points data);
                 pq_intensity := map intensity (scene_points data);
                 pq_label := scene_labels data |}
      else Err ArrowInvalid
  end.

Definition _save_as_parquet (output_dir : string) (data : Scene)
  (filename : string) (fs : Files (text js)) : result (Files (text js)) :=
  match parquet_table data with
  | Err e => Err e
  | Ok table =>
      Ok (write_file (path_of output_dir filename) (parquet_bytes io table) fs)
  end.

(** The strings that [_save_as_ply] writes, one per call of [f.write]. *)
Definition ply_header (points : list Point) : list string :=
  [("ply" ++ nl)%string;
   ("format ascii 1.0" ++ nl)%string;
   ("element vertex " ++ str_of_Z (Z.of_nat (length points)) ++ nl)%string;
   ("property float x" ++ nl)%string;
   ("property float y" ++ nl)%string;
   ("property float z" ++ nl)%string;
   ("property float intensity" ++ nl)%string;
   ("end_header" ++ nl)%string].

Definition ply_point (point : Point) : string :=
  (float32_str io (px point) ++ " " ++ float32_str io (py point) ++ " " ++
   float32_str io (pz point) ++ " " ++ float32_str io (intensity point) ++
   nl)%string.

Definition ply_text (data : Scene) : string :=
  let points := scene_points data in
  String.concat "" (ply_header points ++ map ply_point points).

Definition _save_as_ply (output_dir : string) (data : Scene)
  (filename : string) (fs : Files (text js)) : Files (text js) :=
  write_file (path_of output_dir filename) (text_bytes io (ply_text data)) fs.

(** One entry of the ["presets"] list of the metadata file. *)
Definition preset_entry (id name description : string) : pyval :=
  PDict [("id", PStr id); ("name", PStr name);
         ("description", PStr description);
         ("files", PDict [("parquet", PStr (id ++ ".parquet"));
                          ("ply", PStr (id ++ ".ply"));
                          ("json", PStr (id ++ ".json"))])].

Definition metadata_document : pyval :=
  PDict [("version", PStr "1.0");
         ("generator", PStr "High-Performance Sample Generator");
         ("formats", PList [PStr "parquet"; PStr "ply"; PStr "json"]);
         ("presets",
          PList [preset_entry "traffic_scene" "ðŸš¦ Traffic Intersection"
                   "Realistic intersection with traffic lights and vehicles";
                 preset_entry "urban_street" "ðŸ™ï¸ Urban Street"
                   "City street with buildings and infrastructure";
                 preset_entry "parking_lot" "ðŸ…¿ï¸ Parking Lot"
                   "Shopping mall parking with organized vehicles"]);
         ("usage",
          PDict [("parquet", PStr "Fastest loading, use for production");
                 ("ply", PStr "Standard format, good for visualization tools");
                 ("json", PStr "Human readable, includes full metadata")])].

Definition _generate_metadata (output_dir : string) (fs : Files (text js))
  : Files (text js) :=
  write_file (path_of output_dir "metadata.json")
             (json_dump js metadata_document) fs.

Definition preset_budgets : list (string * Z) :=
  [("traffic_scene", 12000%Z); ("urban_street", 15000%Z);
   ("parking_lot", 18000%Z)].

Definition generate_all_presets (output_dir : string) : IO np js unit :=
  let presets := preset_budgets in
  print "ðŸš€ Generating high-quality sample data..." ;;;
  for_each presets (fun '(preset_name, num_points) =>
    print ("   Generating " ++ preset_name ++ " with " ++
           format_thousands num_points ++ " points...") ;;;
    (* Generate point cloud data *)
    points_data <-- draw (HighPerformanceSampleGenerator._generate_preset_data
                            np preset_name num_points) ;;
    (* Save in multiple formats for flexibility *)
    write (_save_as_parquet output_dir points_data
             (preset_name ++ ".parquet")) ;;;
    write (fun fs => Ok (_save_as_ply output_dir points_data
                           (preset_name ++ ".ply") fs)) ;;;
    write (fun fs => Ok (HighPerformanceSampleGenerator._save_as_json js
                           output_dir points_data (preset_name ++ ".json")
                           fs)) ;;;
    print ("   âœ… " ++ preset_name ++ " complete")) ;;;
  (* Generate metadata file *)
  write (fun fs => Ok (_generate_metadata output_dir fs)) ;;;
  print ("ðŸŽ‰ Sample data generation complete! Check: " ++ output_dir).

(** [main()] with the parsed arguments: [--output] (default
    ["data/sample"]) and [--preset] (absent by default).  An absent or empty
    preset is false in [if args.preset]. *)
Definition main (output : string) (preset : option string) : IO np js unit :=
  let output_dir := output in
  match preset with
  | Some (String c p) =>
      let preset := String c p in
      print ("Generating " ++ preset ++ " preset...") ;;;
      data <-- draw (HighPerformanceSampleGenerator._generate_preset_data
                       np preset 10000) ;;
      write (_save_as_parquet output_dir data (preset ++ ".parquet")) ;;;
      write (fun fs => Ok (_save_as_ply output_dir data (preset ++ ".ply")
                             fs)) ;;;
      write (fun fs => Ok (HighPerformanceSampleGenerator._save_as_json js
                             output_dir data (preset ++ ".json") fs)) ;;;
      print ("âœ… " ++ preset ++ " complete")
  | _ => generate_all_presets output_dir
  end.

End WithLibraries.
End SampleGeneratorIO.

(** A file layer for evaluating the model: a float is printed as the
    fraction it is, a text file holds its text, a Parquet file its columns. *)
Module DemoIO.

Definition fraction_str (q : Q) : string :=
  (str_of_Z (Qnum q) ++ "/" ++ str_of_Z (Z.pos (Qden q)))%string.

Definition demo_io : IOLib Demo.demo_json :=
  {| parquet_bytes := fun t : ParquetTable =>
        PDict [("x", PList (map PNum (pq_x t)));
               ("y", PList (map PNum (pq_y t)));
               ("z", PList (map PNum (pq_z t)));
               ("intensity", PList (map PNum (pq_intensity t)));
               ("label", PList (map PStr (pq_label t)))] : text Demo.demo_json;
     text_bytes := fun s : string => PStr s : text Demo.demo_json;
     float32_str := fraction_str |}.

Definition empty_world : World Demo.demo_json :=
  {| files := []; stdout := [] |}.

End DemoIO.

(** * Vocabulary of the further properties *)

(** The ["id"] and ["num_points"] entries of a scene object. *)
Definition object_id (o : pyval) : string :=
  match py_get "id" o with Some (PStr s) => s | _ => "" end.

Definition declared_points (o : pyval) : nat :=
  match py_get "num_points" o with
  | Some (PNum q) => Z.to_nat (py_int q)
  | _ => 0%nat
  end.

(** The labels that a list of scene objects stands for: the id of each
    object, once per point of the object, in object order. *)
Definition object_labels (objs : list pyval) : list string :=
  flat_map (fun o => repeat (object_id o) (declared_points o)) objs.

(** [l'] keeps some of the elements of [l], in the order of [l]. *)
Inductive subseq {A : Type} : list A -> list A -> Prop :=
| subseq_nil : subseq [] []
| subseq_skip (a : A) (l' l : list A) : subseq l' l -> subseq l' (a :: l)
| subseq_keep (a : A) (l' l : list A) : subseq l' l -> subseq (a :: l') (a :: l).

(** The parking spaces [(row, space)] in the order the grid is visited. *)
Definition parking_cells : list (Z * Z) := list_prod (range 4) (range 6).

Definition cell_id (c : Z * Z) : string :=
  ("parked_car_r" ++ str_of_Z (fst c) ++ "_s" ++ str_of_Z (snd c))%string.

Definition cell_position (c : Z * Z) : Q * Q * Q :=
  ((inject_Z (snd c) - inject_Z 6 / 2) * 3,
   (inject_Z (fst c) - inject_Z 4 / 2) * 8,
   0.8).

(** The scene object of a vehicle of type [snd cv] parked in space [fst cv]. *)
Definition parked_vehicle_object (cv : (Z * Z) * string) : pyval :=
  let '(c, vehicle_type) := cv in
  PDict [("type", PStr "parked_vehicle"); ("id", PStr (cell_id c));
         ("vehicle_type", PStr vehicle_type);
         ("position", py_vec (cell_position c)); ("rotation", PNum 0);
         ("bounding_box", vehicle_bbox (cell_position c) 0 vehicle_type);
         ("num_points", py_count (vehicle_density vehicle_type))].

(** The scene objects of a parking lot whose occupied spaces, with the
    vehicle type drawn for each, are [chosen]. *)
Definition parking_lot_scene_objects (chosen : list ((Z * Z) * string))
  : list pyval :=
  map parked_vehicle_object chosen ++
  map infrastructure_object HighPerformanceSampleGenerator.infrastructure.

(** The number of points that the scene objects declare. *)
Definition declared_total (objs : list pyval) : nat :=
  list_sum (map declared_points objs).

(** The labels of a generated scene follow from its objects: each object's
    id once per declared point, then the surface label for the rest of the
    budget; points, labels and metadata agree on the counts. *)
Definition scene_structure (np : NumPy) (preset : string) (num_points : Z)
  (s : rng np) : Prop :=
  exists sc,
    fst (HighPerformanceSampleGenerator._generate_preset_data
           np preset num_points s) = Ok sc /\
    let footprint := declared_total (scene_objects sc) in
    let fill := Z.to_nat (num_points - Z.of_nat footprint) in
    scene_labels sc =
      object_labels (scene_objects sc) ++ repeat (surface_label preset) fill /\
    length (scene_points sc) = (footprint + fill)%nat /\
    length (scene_labels sc) = length (scene_points sc) /\
    total_points (metadata sc) = length (scene_points sc) /\
    num_objects (metadata sc) = length (scene_objects sc).

(** Object ids are pairwise distinct and differ from the surface label. *)
Definition ids_distinct (np : NumPy) (preset : string) (num_points : Z)
  (s : rng np) : Prop :=
  exists sc,
    fst (HighPerformanceSampleGenerator._generate_preset_data
           np preset num_points s) = Ok sc /\
    NoDup (map object_id (scene_objects sc)) /\
    ~ In (surface_label preset) (map object_id (scene_objects sc)) /\
    forall o, In o (scene_objects sc) ->
      count_occ string_dec (scene_labels sc) (object_id o) = declared_points o.

(** The parking lot: vehicles on some of the grid's spaces, then the poles. *)
Definition parking_lot_structure (np : NumPy) (num_points : Z) (s : rng np)
  : Prop :=
  exists sc chosen,
    fst (HighPerformanceSampleGenerator._generate_preset_data
           np "parking_lot" num_points s) = Ok sc /\
    subseq (map fst chosen) parking_cells /\
    scene_objects sc = parking_lot_scene_objects chosen /\
    (5 <= num_objects (metadata sc) <= 29)%nat /\
    (400 <= declared_total (scene_objects sc) <= Z.to_nat 10000)%nat.

(** A scene with exactly the requested number of points. *)
Definition exact_budget (np : NumPy) (preset : string) (num_points : Z)
  (s : rng np) : Prop :=
  exists sc,
    fst (HighPerformanceSampleGenerator._generate_preset_data
           np preset num_points s) = Ok sc /\
    Z.of_nat (total_points (metadata sc)) = num_points /\
    Z.of_nat (length (scene_points sc)) = num_points /\
    Z.of_nat (length (scene_labels sc)) = num_points.

(** The lines of a PLY file for the given points: header, then one line per
    point. *)
Definition ply_header_lines (n : nat) : list string :=
  ["ply"; "format ascii 1.0";
   ("element vertex " ++ str_of_Z (Z.of_nat n))%string;
   "property float x"; "property float y"; "property float z";
   "property float intensity"; "end_header"].

Definition ply_point_line {js : JsonLib} (io : IOLib js) (p : Point) : string :=
  (float32_str io (px p) ++ " " ++ float32_str io (py p) ++ " " ++
   float32_str io (pz p) ++ " " ++ float32_str io (intensity p))%string.

(** The text of a float32 holds no line feed. *)
Definition single_line_floats {js : JsonLib} (io : IOLib js) : Prop :=
  forall q : Q, has_line_feed (float32_str io q) = false.

(** The three files written for a scene: on top of [before], the JSON
    document, the PLY text and the Parquet table of the scene. *)
Definition exported {js : JsonLib} (io : IOLib js) (output_dir : string)
  (preset : string) (sc : Scene) (before after : Files (text js)) : Prop :=
  exists t,
    SampleGeneratorIO.parquet_table sc = Ok t /\
    length (pq_x t) = total_points (metadata sc) /\
    length (pq_y t) = total_points (metadata sc) /\
    length (pq_z t) = total_points (metadata sc) /\
    length (pq_intensity t) = total_points (metadata sc) /\
    length (pq_label t) = total_points (metadata sc) /\
    pq_label t = scene_labels sc /\
    after =
      (SampleGeneratorIO.path_of output_dir (preset ++ ".json"),
       json_dump js (HighPerformanceSampleGenerator.output_data sc)) ::
      (SampleGeneratorIO.path_of output_dir (preset ++ ".ply"),
       text_bytes io (SampleGeneratorIO.ply_text io sc)) ::
      (SampleGeneratorIO.path_of output_dir (preset ++ ".parquet"),
       parquet_bytes io t) :: before.




(** A run of [main] for an unknown preset: the exception leaves the files
    and the random generator as they were. *)
Definition preset_rejected (np : NumPy) (js : JsonLib) (io : IOLib js)
  (output preset : string) (s : rng np) (w : World js) : Prop :=
  SampleGeneratorIO.main np io output (Some preset) (s, w) =
    (Err (AttributeError "_generate_random_scene"),
     (s, {| files := files w;
            stdout := stdout w ++
              [("Generating " ++ preset ++ " preset...")%string] |})).



(** * Properties *)

Unset Implicit Arguments.

(** ** Loops *)

Lemma length_range (n : Z) : length (range n) = Z.to_nat n.
Proof. unfold range. now rewrite length_map, length_seq. Qed.

Section LoopLemmas.
Context {S A St : Type}.
Variable body : A -> St -> M S St.

Lemma for_in_cons (a : A) (l : list A) (st : St) (s : S) :
  for_in (a :: l) body st s =
  for_in l body (fst (body a st s)) (snd (body a st s)).
Proof. simpl. unfold bind. now destruct (body a st s). Qed.

(** A property preserved by the body holds after the loop. *)
Lemma for_in_invariant (I : St -> Prop) :
  (forall a st s, I st -> I (fst (body a st s))) ->
  forall l st s, I st -> I (fst (for_in l body st s)).
Proof.
  intros Hbody l. induction l as [|a l IH]; intros st s Hst.
  - exact Hst.
  - rewrite for_in_cons. apply IH. now apply Hbody.
Qed.

End LoopLemmas.

(** A loop whose body appends [k] points, each satisfying [P], appends
    [k * length l] such points and keeps what was there. *)
Lemma point_loop {S A : Type} (P : Point -> Prop) (k : nat)
  (body : A -> list Point -> M S (list Point)) :
  (forall a pts s, exists new,
      fst (body a pts s) = pts ++ new /\ length new = k /\ Forall P new) ->
  forall l pts s, exists new,
      fst (for_in l body pts s) = pts ++ new /\
      length new = (k * length l)%nat /\ Forall P new.
Proof.
  intros Hbody l. induction l as [|a l IH]; intros pts s.
  - exists []. simpl. rewrite app_nil_r. repeat split; auto; lia.
  - rewrite for_in_cons.
    destruct (Hbody a pts s) as (n1 & E1 & L1 & P1). rewrite E1.
    destruct (IH (pts ++ n1) (snd (body a pts s))) as (n2 & E2 & L2 & P2).
    exists (n1 ++ n2). rewrite E2, <- app_assoc, length_app.
    repeat split; [simpl; lia | now apply Forall_app].
Qed.

(** Run the next draw of a loop body, recording the range of a uniform draw
    whose bounds are literals. *)
Ltac draw np :=
  cbn beta iota;
  match goal with
  | |- context [uniform np ?lo ?hi ?s] =>
      first
        [ let Hle := fresh in
          assert (Hle : lo <= hi) by lra;
          generalize (fun Hr : uniform_in_range np => Hr lo hi s Hle);
          clear Hle;
          destruct (uniform np lo hi s) as [? ?]; simpl fst; intro
        | destruct (uniform np lo hi s) as [? ?] ]
  | |- context [if ?b then _ else _] => destruct b
  | |- context [let (_, _) := ?m in _] => destruct m as [? ?]
  end.

(** Once the draws are run, the body has appended one point, whose
    intensity is in range by the recorded bounds. *)
Ltac point_ok :=
  let Hr := fresh "Hr" in
  cbn beta iota;
  eexists; split; [reflexivity | split; [reflexivity |]];
  apply Forall_cons; [| apply Forall_nil]; intro Hr;
  repeat match goal with
  | H : uniform_in_range _ -> _ |- _ => specialize (H Hr); destruct H
  end;
  unfold intensity_ok; simpl; split; lra.

Ltac one_point np :=
  intros ? ? ?; unfold bind, ret; repeat draw np; point_ok.

(** Run the next sampling loop of a sampler. *)
Ltac loop np :=
  unfold bind; cbn beta iota;
  match goal with
  | |- context [for_in ?l ?b ?p ?s] =>
      let new := fresh "new" in
      let E := fresh "E" in
      let L := fresh "L" in
      let F := fresh "F" in
      destruct (point_loop (sampled np) 1 b ltac:(one_point np) l p s)
        as (new & E & L & F);
      destruct (for_in l b p s) as [? ?]; simpl fst in E; subst;
      rewrite length_range, Nat.mul_1_l in L
  end.

Ltac sampler_done :=
  unfold ret; cbn; split;
  [ repeat rewrite length_app; simpl; lia
  | repeat (apply Forall_app; split); auto ].

Section AppSamplers.
Variable np : NumPy.
Import PointCloudProcessor.

Lemma generate_traffic_light_spec center n s :
  sampler_spec np (3 * Z.to_nat (n / 3))
    (fst (_generate_traffic_light np center n s)).
Proof.
  destruct center as [[x y] z]. unfold _generate_traffic_light.
  do 3 loop np. sampler_done.
Qed.

Lemma generate_car_spec center yaw n s :
  sampler_spec np (Z.to_nat n) (fst (_generate_car np center yaw n s)).
Proof.
  destruct center as [[x y] z]. unfold _generate_car.
  loop np. sampler_done.
Qed.

Lemma generate_road_surface_spec n s :
  sampler_spec np (Z.to_nat n) (fst (_generate_road_surface np n s)).
Proof. unfold _generate_road_surface. loop np. sampler_done. Qed.

End AppSamplers.

Section GenSamplers.
Variable np : NumPy.
Import HighPerformanceSampleGenerator.

Ltac with_bbox := split; [sampler_done | reflexivity].

Lemma create_traffic_light_detailed_spec center rotation :
  object_spec np 180 (traffic_light_bbox center rotation)
    (_create_traffic_light_detailed np center rotation).
Proof.
  intros s. destruct center as [[x y] z].
  unfold _create_traffic_light_detailed.
  do 3 loop np. with_bbox.
Qed.

Lemma create_vehicle_detailed_spec center rotation vehicle_type :
  object_spec np (vehicle_density vehicle_type)
    (vehicle_bbox center rotation vehicle_type)
    (_create_vehicle_detailed np center rotation vehicle_type).
Proof.
  intros s. destruct center as [[x y] z].
  unfold _create_vehicle_detailed, vehicle_density, vehicle_bbox.
  destruct (vehicle_dimensions vehicle_type) as [[[l w] h] d].
  loop np. with_bbox.
Qed.

Lemma create_building_spec center size :
  object_spec np (building_density size) (building_bbox center size)
    (_create_building np center size).
Proof.
  intros s. destruct center as [[x y] z], size as [[l w] h].
  unfold _create_building, building_density.
  loop np. with_bbox.
Qed.

Lemma create_lamp_post_spec center :
  object_spec np 45 (lamp_post_bbox center) (_create_lamp_post np center).
Proof.
  intros s. destruct center as [[x y] z]. unfold _create_lamp_post.
  do 2 loop np. with_bbox.
Qed.

Lemma create_bench_spec center :
  object_spec np 40 (bench_bbox center) (_create_bench np center).
Proof.
  intros s. destruct center as [[x y] z]. unfold _create_bench.
  loop np. with_bbox.
Qed.

Lemma create_light_pole_spec center :
  object_spec np 80 (light_pole_bbox center) (_create_light_pole np center).
Proof.
  intros s. destruct center as [[x y] z]. unfold _create_light_pole.
  loop np.
  match goal with
  | |- context [for_in ?l ?b ?p ?s] =>
      assert (Hfix : forall a pts s, exists new,
                 fst (b a pts s) = pts ++ new /\ length new = 10%nat /\
                 Forall (sampled np) new);
      [| destruct (point_loop (sampled np) 10 b Hfix l p s)
           as (fixtures & E & L' & F');
         destruct (for_in l b p s) as [? ?]; simpl fst in E; subst;
         rewrite length_range in L' ]
  end.
  - intros fixture pts s'. cbn beta zeta.
    match goal with
    | |- context [for_in ?l ?b ?p ?s] =>
        destruct (point_loop (sampled np) 1 b ltac:(one_point np) l p s)
          as (new' & E' & L' & F')
    end.
    exists new'. rewrite length_range in L'. auto.
  - with_bbox.
Qed.

Lemma create_road_with_markings_spec n s :
  sampler_spec np (Z.to_nat n) (fst (_create_road_with_markings np n s)).
Proof. unfold _create_road_with_markings. loop np. sampler_done. Qed.

Lemma create_urban_road_surface_spec n s :
  sampler_spec np (Z.to_nat n) (fst (_create_urban_road_surface np n s)).
Proof. unfold _create_urban_road_surface. loop np. sampler_done. Qed.

Lemma create_parking_surface_spec n s :
  sampler_spec np (Z.to_nat n) (fst (_create_parking_surface np n s)).
Proof. unfold _create_parking_surface. loop np. sampler_done. Qed.

End GenSamplers.

(** ** The object loops of the scene generators *)

Section ObjectLoops.
Variable np : NumPy.
Import HighPerformanceSampleGenerator.

(** A loop that places one object per item: [f a] points labelled [lab a]
    and the dictionary [obj a]. *)
Lemma object_loop {A : Type} (f : A -> nat) (lab : A -> string)
  (obj : A -> pyval) (body : A -> Acc -> M (rng np) Acc) :
  (forall a ap al so s, exists new s',
      body a (ap, al, so) s =
        ((ap ++ new, al ++ repeat (lab a) (f a), so ++ [obj a]), s') /\
      sampler_spec np (f a) new) ->
  forall l ap al so s, exists new s',
      for_in l body (ap, al, so) s =
        ((ap ++ new, al ++ concat (map (fun a => repeat (lab a) (f a)) l),
          so ++ map obj l), s') /\
      sampler_spec np (list_sum (map f l)) new.
Proof.
  intros Hbody l. induction l as [|a l IH]; intros ap al so s.
  - exists [], s. simpl. rewrite !app_nil_r. repeat split. constructor.
  - destruct (Hbody a ap al so s) as (n1 & s1 & E1 & L1 & F1).
    destruct (IH (ap ++ n1) (al ++ repeat (lab a) (f a)) (so ++ [obj a]) s1)
      as (n2 & s2 & E2 & L2 & F2).
    exists (n1 ++ n2), s2. split.
    + simpl. unfold bind. rewrite E1, E2. simpl. now rewrite <- !app_assoc.
    + split; [rewrite length_app; simpl; lia | now apply Forall_app].
Qed.

(** The body of an object loop, from the specification of its sampler. *)
Ltac place_object spec :=
  unfold bind, ret;
  let L := fresh "L" in
  let F := fresh "F" in
  let B := fresh "B" in
  match goal with
  | |- context [let (_, _) := ?m ?s in _] =>
      destruct (spec s) as [[L F] B];
      destruct (m s) as [[? ?] ?]; simpl in L, F, B; subst
  end;
  unfold py_len; rewrite ?L;
  do 2 eexists; split; [reflexivity | split; assumption].

(** Run the next object loop of a scene generator; the first goal left is
    the body of the loop. *)
Ltac objects f lab obj :=
  unfold bind at 1; cbn beta iota;
  match goal with
  | |- context [for_in ?l ?b (?ap, ?al, ?so) ?s] =>
      let Hloop := fresh "Hloop" in
      let new := fresh "new" in
      let E := fresh "E" in
      let L := fresh "L" in
      let F := fresh "F" in
      pose proof (fun Hb => object_loop f lab obj b Hb l ap al so s) as Hloop;
      destruct Hloop as (new & ? & E & L & F); [| rewrite E; clear E]
  end.

(** The accumulated points are the concatenation of the objects' points. *)
Ltac objects_done :=
  cbn beta iota; do 2 eexists; split; [reflexivity |];
  split;
  [ repeat rewrite length_app;
    repeat match goal with H : length _ = _ |- _ => rewrite H; clear H end;
    reflexivity
  | repeat (apply Forall_app; split); auto ].

Lemma traffic_intersection_objects_spec s :
  exists pts s',
    traffic_intersection_objects np s =
      ((pts, traffic_intersection_object_labels np,
        traffic_intersection_scene_objects np), s') /\
    sampler_spec np 2470 pts.
Proof.
  unfold traffic_intersection_objects.
  objects (fun _ : (Q * Q * Q) * Q * string => 180%nat)
          (@snd ((Q * Q * Q) * Q) string) traffic_light_object.
  { intros [[pos rot] id] ap al so s0.
    place_object (create_traffic_light_detailed_spec np pos rot). }
  objects (fun v : (Q * Q * Q) * Q * string * string =>
             vehicle_density (snd (fst v)))
          (@snd ((Q * Q * Q) * Q * string) string) vehicle_object.
  { intros [[[pos rot] type] id] ap al so s0.
    place_object (create_vehicle_detailed_spec np pos rot type). }
  objects_done.
Qed.

Lemma urban_street_objects_spec s :
  exists pts s',
    urban_street_objects np s =
      ((pts, urban_street_object_labels np, urban_street_scene_objects np),
       s') /\
    sampler_spec np 3740 pts.
Proof.
  unfold urban_street_objects.
  objects (fun b : (Q * Q * Q) * (Q * Q * Q) * string =>
             building_density (snd (fst b)))
          (@snd ((Q * Q * Q) * (Q * Q * Q)) string) building_object.
  { intros [[pos size] id] ap al so s0.
    place_object (create_building_spec np pos size). }
  objects (fun f : (Q * Q * Q) * furniture_kind * string =>
             furniture_density (snd (fst f)))
          (@snd ((Q * Q * Q) * furniture_kind) string) furniture_object.
  { intros [[pos [|]] id] ap al so s0.
    - place_object (create_lamp_post_spec np pos).
    - place_object (create_bench_spec np pos). }
  objects (fun _ : (Q * Q * Q) * Q * string => vehicle_density "sedan")
          (@snd ((Q * Q * Q) * Q) string) parked_car_object.
  { intros [[pos rot] id] ap al so s0.
    place_object (create_vehicle_detailed_spec np pos rot "sedan"). }
  objects_done.
Qed.

Lemma parking_space_ok rows spaces_per_row row space acc s :
  acc_ok np acc ->
  acc_ok np (fst (parking_space np rows spaces_per_row row space acc s)).
Proof.
  destruct acc as [[ap al] so]. intros [Hp Hl]. simpl in Hp, Hl.
  unfold parking_space, bind.
  destruct (random np s) as [r s1].
  destruct (Qltb r 0.75); [| now split].
  destruct (choice np vehicle_types s1) as [vehicle_type s2].
  match goal with
  | |- context [_create_vehicle_detailed np ?c ?r ?t s2] =>
      destruct (create_vehicle_detailed_spec np c r t s2) as [[L F] _];
      destruct (_create_vehicle_detailed np c r t s2) as [[pts bbox] s3]
  end.
  simpl in L, F. split; simpl.
  - now apply Forall_app.
  - rewrite !length_app, repeat_length. lia.
Qed.

Lemma parking_lot_objects_spec s :
  exists grid poles al so s',
    parking_lot_objects np s = ((grid ++ poles, al, so), s') /\
    sampler_spec np 400 poles /\
    acc_ok np (grid ++ poles, al, so).
Proof.
  unfold parking_lot_objects. unfold bind at 1. cbn beta iota zeta.
  match goal with
  | |- context [for_in ?l ?b ?acc s] =>
      pose proof (for_in_invariant b (acc_ok np)) as Hgrid;
      specialize (fun Hb => Hgrid Hb l acc s);
      destruct (for_in l b acc s) as [[[ap al] so] s1]
  end.
  assert (Hok : acc_ok np (ap, al, so)).
  { apply Hgrid; [| split; [constructor | reflexivity]].
    intros row st s0. apply for_in_invariant.
    intros space st' s0'. apply parking_space_ok. }
  clear Hgrid. destruct Hok as [Hp Hl]. simpl in Hp, Hl. simpl fst. simpl snd.
  objects (fun _ : (Q * Q * Q) * string * string => 80%nat)
          (@snd ((Q * Q * Q) * string) string) infrastructure_object.
  { intros [[pos type] id] ap' al' so' s0.
    place_object (create_light_pole_spec np pos). }
  do 5 eexists. split; [reflexivity |].
  split; [split; assumption |].
  split; simpl.
  - apply Forall_app. now split.
  - rewrite !length_app, Hl, L. reflexivity.
Qed.

End ObjectLoops.

(** ** Scene bounds *)

Section Bounds.
Import HighPerformanceSampleGenerator.

Lemma column_min_le (l : list Q) : forall a,
  column_min a l <= a /\ Forall (fun x => column_min a l <= x) l.
Proof.
  unfold column_min. induction l as [|x l IH]; intros a; simpl.
  - split; [apply Qle_refl | constructor].
  - destruct (IH (Qmin a x)) as [Ha Hl]. split.
    + eapply Qle_trans; [exact Ha | apply Q.le_min_l].
    + constructor; [| exact Hl].
      eapply Qle_trans; [exact Ha | apply Q.le_min_r].
Qed.

Lemma column_max_ge (l : list Q) : forall a,
  a <= column_max a l /\ Forall (fun x => x <= column_max a l) l.
Proof.
  unfold column_max. induction l as [|x l IH]; intros a; simpl.
  - split; [apply Qle_refl | constructor].
  - destruct (IH (Qmax a x)) as [Ha Hl]. split.
    + eapply Qle_trans; [apply Q.le_max_l | exact Ha].
    + constructor; [| exact Hl].
      eapply Qle_trans; [apply Q.le_max_r | exact Ha].
Qed.

(** One column: the minimum is below the maximum, and every entry of the
    column lies between them. *)
Lemma column_range (f : Point -> Q) (p : Point) (ps : list Point) :
  column_min (f p) (map f ps) <= column_max (f p) (map f ps) /\
  Forall (fun q => column_min (f p) (map f ps) <= f q /\
                   f q <= column_max (f p) (map f ps)) (p :: ps).
Proof.
  destruct (column_min_le (map f ps) (f p)) as [Hmin Hmins].
  destruct (column_max_ge (map f ps) (f p)) as [Hmax Hmaxs].
  split; [eapply Qle_trans; eassumption |].
  constructor; [now split |].
  rewrite Forall_map in Hmins, Hmaxs.
  rewrite Forall_forall in *. intros q Hq. split; auto.
Qed.

Lemma calculate_bounds_spec (points : list Point) :
  points <> [] ->
  exists b, _calculate_bounds points = Ok b /\
            bounds_ordered b /\ Forall (in_bounds b) points.
Proof.
  destruct points as [|p ps]; [congruence | intros _].
  eexists. split; [reflexivity |].
  destruct (column_range px p ps) as [Hx Fx].
  destruct (column_range py p ps) as [Hy Fy].
  destruct (column_range pz p ps) as [Hz Fz].
  split; [repeat split; assumption |].
  rewrite Forall_forall in *. intros q Hq.
  unfold in_bounds; simpl. auto.
Qed.

End Bounds.

(** ** The scene generators, end to end *)

Section Composition.
Variable np : NumPy.
Import HighPerformanceSampleGenerator.

Lemma objects_phase_spec preset s :
  In preset presets ->
  exists ap al so s1,
    objects_phase np preset s = ((ap, al, so), s1) /\
    acc_ok np (ap, al, so) /\ ap <> [].
Proof.
  intros [<- | [<- | [<- | []]]]; unfold objects_phase; simpl.
  - destruct (traffic_intersection_objects_spec np s) as (pts & s1 & E & L & F).
    exists pts, (traffic_intersection_object_labels np),
      (traffic_intersection_scene_objects np), s1.
    split; [exact E |]. split; [split |].
    + exact F.
    + cbn [fst snd]. rewrite L. reflexivity.
    + intros ->. discriminate L.
  - destruct (urban_street_objects_spec np s) as (pts & s1 & E & L & F).
    exists pts, (urban_street_object_labels np),
      (urban_street_scene_objects np), s1.
    split; [exact E |]. split; [split |].
    + exact F.
    + cbn [fst snd]. rewrite L. reflexivity.
    + intros ->. discriminate L.
  - destruct (parking_lot_objects_spec np s)
      as (grid & poles & al & so & s1 & E & [L F] & Hok).
    exists (grid ++ poles), al, so, s1. repeat split; auto; try apply Hok.
    intros H. apply (f_equal (@length Point)) in H.
    rewrite length_app, L in H. simpl in H. lia.
Qed.

Lemma surface_filler_spec preset n s :
  sampler_spec np (Z.to_nat n) (fst (surface_filler np preset n s)).
Proof.
  unfold surface_filler.
  destruct (String.eqb preset "traffic_scene");
    [apply create_road_with_markings_spec |].
  destruct (String.eqb preset "urban_street");
    [apply create_urban_road_surface_spec |
     apply create_parking_surface_spec].
Qed.

(** Every known preset returns a scene: the placed objects, followed by the
    surface points drawn for the rest of the budget. *)
Lemma generate_preset_data_spec preset n s :
  In preset presets ->
  exists ap al so s1 surface s2 b,
    objects_phase np preset s = ((ap, al, so), s1) /\
    surface_filler np preset (n - Z.of_nat (length ap))%Z s1 = (surface, s2) /\
    _calculate_bounds (ap ++ surface) = Ok b /\
    _generate_preset_data np preset n s =
      (Ok (composed_scene np preset ap al so surface b), s2).
Proof.
  intros Hin.
  destruct (objects_phase_spec preset s Hin) as (ap & al & so & s1 & E & _ & Hne).
  destruct (surface_filler np preset (n - Z.of_nat (length ap))%Z s1)
    as [surface s2] eqn:Es.
  destruct (calculate_bounds_spec (ap ++ surface)) as (b & Eb & _).
  { destruct ap; [congruence | discriminate]. }
  exists ap, al, so, s1, surface, s2, b.
  repeat split; auto.
  destruct Hin as [<- | [<- | [<- | []]]];
    unfold objects_phase, surface_filler in *; simpl in E, Es;
    unfold _generate_preset_data; simpl;
    [ unfold _generate_traffic_intersection, traffic_intersection_accumulate
    | unfold _generate_urban_street, urban_street_accumulate
    | unfold _generate_parking_lot, parking_lot_accumulate ];
    unfold bind, ret; rewrite E, Es; unfold build_scene; rewrite Eb;
    reflexivity.
Qed.

End Composition.

(** ** The traffic scene of [PointCloudProcessor] *)

Section AppComposition.
Variable np : NumPy.
Import PointCloudProcessor.

(** A loop that places one object per item: [f a] points labelled [lab a]. *)
Lemma label_loop {A : Type} (f : A -> nat) (lab : A -> string)
  (body : A -> list Point * list string -> M (rng np) (list Point * list string)) :
  (forall a ap al s, exists new s',
      body a (ap, al) s = ((ap ++ new, al ++ repeat (lab a) (f a)), s') /\
      sampler_spec np (f a) new) ->
  forall l ap al s, exists new s',
      for_in l body (ap, al) s =
        ((ap ++ new, al ++ concat (map (fun a => repeat (lab a) (f a)) l)),
         s') /\
      sampler_spec np (list_sum (map f l)) new.
Proof.
  intros Hbody l. induction l as [|a l IH]; intros ap al s.
  - exists [], s. simpl. rewrite !app_nil_r. repeat split. constructor.
  - destruct (Hbody a ap al s) as (n1 & s1 & E1 & L1 & F1).
    destruct (IH (ap ++ n1) (al ++ repeat (lab a) (f a)) s1)
      as (n2 & s2 & E2 & L2 & F2).
    exists (n1 ++ n2), s2. split.
    + simpl. unfold bind. rewrite E1, E2. simpl. now rewrite <- !app_assoc.
    + split; [rewrite length_app; simpl; lia | now apply Forall_app].
Qed.

Ltac labels f lab :=
  unfold bind at 1; cbn beta iota;
  match goal with
  | |- context [for_in ?l ?b (?ap, ?al) ?s] =>
      let Hloop := fresh "Hloop" in
      let new := fresh "new" in
      let E := fresh "E" in
      let L := fresh "L" in
      let F := fresh "F" in
      pose proof (fun Hb => label_loop f lab b Hb l ap al s) as Hloop;
      destruct Hloop as (new & ? & E & L & F); [| rewrite E; clear E]
  end.

Ltac place spec :=
  unfold bind, ret;
  let L := fresh "L" in
  let F := fresh "F" in
  match goal with
  | |- context [let (_, _) := ?m ?s in _] =>
      destruct (spec s) as [L F];
      destruct (m s) as [? ?]; simpl in L, F
  end;
  rewrite ?L;
  do 2 eexists; split; [reflexivity | split; assumption].

Lemma create_traffic_scene_accumulate_spec n s :
  exists objs road s',
    _create_traffic_scene_accumulate np n s =
      ((objs ++ road,
        traffic_scene_object_labels ++ repeat "road" (length road)), s') /\
    sampler_spec np 2394 objs /\
    sampler_spec np (Z.to_nat (n - 2394)) road.
Proof.
  unfold _create_traffic_scene_accumulate. cbn zeta.
  labels (fun _ : Z * (Q * Q * Q) => 198%nat)
         (fun ip : Z * (Q * Q * Q) =>
            ("traffic_light_" ++ str_of_Z (fst ip + 1))%string).
  { intros [i pos] ap al s0.
    place (generate_traffic_light_spec np pos 200). }
  labels (fun _ : Z * (Q * Q * Q * Q) => 300%nat)
         (fun ip : Z * (Q * Q * Q * Q) =>
            ("car_" ++ str_of_Z (fst ip + 1))%string).
  { intros [i [[[cx cy] cz] yaw]] ap al s0.
    place (generate_car_spec np (cx, cy, cz) yaw 300). }
  cbn beta iota. unfold bind, ret.
  assert (Hlen : length (([] ++ new) ++ new0) = 2394%nat).
  { rewrite length_app. simpl. rewrite L, L0. reflexivity. }
  rewrite Hlen.
  match goal with
  | |- context [_generate_road_surface np ?k ?st] =>
      pose proof (generate_road_surface_spec np k st) as Hroad;
      destruct (_generate_road_surface np k st) as [road s2]
  end.
  exists (([] ++ new) ++ new0), road, s2.
  split; [reflexivity |]. split; [| exact Hroad].
  split; [exact Hlen | apply Forall_app; split; auto].
Qed.

End AppComposition.

(** * The claims *)

Lemma length_to_float32 np (points : list Point) :
  length (to_float32 np points) = length points.
Proof. unfold to_float32. apply length_map. Qed.

Lemma length_nil_inv {A : Type} (l : list A) : length l = 0%nat -> l = [].
Proof. destruct l; [reflexivity | discriminate]. Qed.

(** An unknown preset reaches the last branch of both dispatchers, whose
    method does not exist. *)
Lemma unknown_preset_raises np preset num_points s :
  ~ In preset presets ->
  fst (PointCloudProcessor.generate_sample_data np preset num_points s) =
    Err (AttributeError "_create_random_scene") /\
  fst (HighPerformanceSampleGenerator._generate_preset_data
         np preset num_points s) =
    Err (AttributeError "_generate_random_scene").
Proof.
  intros Hnot.
  unfold PointCloudProcessor.generate_sample_data,
    HighPerformanceSampleGenerator._generate_preset_data.
  destruct (String.eqb_spec preset "traffic_scene") as [-> | _];
    [exfalso; apply Hnot; simpl; auto |].
  destruct (String.eqb_spec preset "urban_street") as [-> | _];
    [exfalso; apply Hnot; simpl; auto |].
  destruct (String.eqb_spec preset "parking_lot") as [-> | _];
    [exfalso; apply Hnot; simpl; auto |].
  split; reflexivity.
Qed.

(** C1 (code defect): for a preset name outside the three known ones, e.g.
    ["unknown_preset"], neither entry point returns a scene: the fallback
    methods [_create_random_scene] and [_generate_random_scene] are called
    but defined nowhere, so both calls raise [AttributeError], whatever the
    point count and the state of the random generator. *)
Theorem C1_unknown_preset_raises_AttributeError (np : NumPy) (num_points : Z)
  (s : rng np) :
  fst (PointCloudProcessor.generate_sample_data
         np "unknown_preset" num_points s) =
    Err (AttributeError "_create_random_scene") /\
  fst (HighPerformanceSampleGenerator._generate_preset_data
         np "unknown_preset" num_points s) =
    Err (AttributeError "_generate_random_scene").
Proof. split; reflexivity. Qed.

(** C2: for each of the three presets of the sample generator and every
    budget [num_points], the surface filler is called with
    [num_points - footprint]; if the placed objects fit in the budget the
    scene has exactly [num_points] points, and otherwise the filler receives
    a negative count, emits no point and no error is raised. *)
Theorem C2_point_budget (np : NumPy) (preset : string) (num_points : Z)
  (s : rng np) :
  In preset presets -> budget_respected np preset num_points s.
Proof.
  intros Hin. unfold budget_respected, surface_points, placed_points.
  destruct (generate_preset_data_spec np preset num_points s Hin)
    as (ap & al & so & s1 & surface & s2 & b & E & Es & Eb & Eg).
  rewrite E, Eg. cbn [fst snd]. rewrite Es. cbn [fst].
  pose proof (surface_filler_spec np preset
                (num_points - Z.of_nat (length ap))%Z s1) as [L _].
  rewrite Es in L. cbn [fst] in L.
  eexists. split; [reflexivity |]. cbn [composed_scene scene_points metadata
    total_points].
  rewrite length_to_float32, length_app, L.
  split; [reflexivity |]. split; [reflexivity |]. split; [lia |].
  split; [intros; lia |].
  intros Hlt. split; [apply length_nil_inv |]; lia.
Qed.

Lemma C2_point_budget_witness :
  budget_respected Demo.demo_np "traffic_scene" 3000 1%Z.
Proof.
  apply (C2_point_budget Demo.demo_np "traffic_scene" 3000 1%Z).
  simpl. auto.
Defined.

(** C3, as amended: in the sample generator, when the placed objects of a
    preset already exceed the requested [num_points], the scene holds every
    object point and label, in order and untruncated, and nothing else: the
    caller receives more points than requested. *)
Theorem C3_placed_objects_not_truncated (np : NumPy) (preset : string)
  (num_points : Z) (s : rng np) :
  In preset presets ->
  (num_points < Z.of_nat (length (placed_points np preset s)))%Z ->
  objects_kept np preset num_points s.
Proof.
  intros Hin. unfold objects_kept, placed_labels, placed_points.
  destruct (generate_preset_data_spec np preset num_points s Hin)
    as (ap & al & so & s1 & surface & s2 & b & E & Es & Eb & Eg).
  rewrite E, Eg. cbn [fst snd]. intros Hlt.
  pose proof (surface_filler_spec np preset
                (num_points - Z.of_nat (length ap))%Z s1) as [L _].
  rewrite Es in L. cbn [fst] in L.
  assert (surface = []) as -> by (apply length_nil_inv; lia).
  eexists. split; [reflexivity |].
  cbn [composed_scene scene_points scene_labels metadata total_points].
  cbn [length repeat]. rewrite !app_nil_r, length_to_float32.
  repeat split. exact Hlt.
Qed.

Lemma C3_placed_objects_not_truncated_witness :
  objects_kept Demo.demo_np "traffic_scene" 100 1%Z.
Proof.
  apply (C3_placed_objects_not_truncated Demo.demo_np "traffic_scene" 100 1%Z).
  - simpl. auto.
  - vm_compute. reflexivity.
Defined.

(** C3 as stated fails for [PointCloudProcessor._create_traffic_scene]: with
    [num_points = 100] its accumulators hold the 2394 points of the placed
    objects, and the returned table keeps the first 100 of them. *)
Lemma C3_counterexample_table_is_sliced :
  length (fst (fst (PointCloudProcessor._create_traffic_scene_accumulate
                      Demo.demo_np 100 1%Z))) = 2394%nat /\
  exists t,
    fst (PointCloudProcessor._create_traffic_scene Demo.demo_np 100 1%Z) =
      Ok t /\
    num_rows t = 100%nat /\
    ~ (100 < Z.of_nat (num_rows t))%Z.
Proof.
  split; [vm_compute; reflexivity |].
  eexists. split; [vm_compute; reflexivity |].
  split; [vm_compute; reflexivity |].
  vm_compute. discriminate.
Qed.

(** C4, as amended: a sampler that takes a point count never emits more than
    the count.  The car sampler and every surface filler emit exactly
    [num_points] points; the traffic-light sampler of [PointCloudProcessor]
    emits [3 * (num_points // 3)] points, up to two fewer than requested.  A
    count of 0 gives an empty list and no error. *)
Theorem C4_sampler_point_counts (np : NumPy) (num_points : Z)
  (center : Q * Q * Q) (yaw : Q) (s : rng np) :
  (length (fst (PointCloudProcessor._generate_traffic_light
                  np center num_points s)) =
     3 * Z.to_nat (num_points / 3) /\
   3 * Z.to_nat (num_points / 3) <= Z.to_nat num_points)%nat /\
  length (fst (PointCloudProcessor._generate_car
                 np center yaw num_points s)) = Z.to_nat num_points /\
  length (fst (PointCloudProcessor._generate_road_surface np num_points s)) =
    Z.to_nat num_points /\
  length (fst (HighPerformanceSampleGenerator._create_road_with_markings
                 np num_points s)) = Z.to_nat num_points /\
  length (fst (HighPerformanceSampleGenerator._create_urban_road_surface
                 np num_points s)) = Z.to_nat num_points /\
  length (fst (HighPerformanceSampleGenerator._create_parking_surface
                 np num_points s)) = Z.to_nat num_points /\
  fst (PointCloudProcessor._generate_traffic_light np center 0 s) = [] /\
  fst (PointCloudProcessor._generate_car np center yaw 0 s) = [] /\
  fst (PointCloudProcessor._generate_road_surface np 0 s) = [].
Proof.
  split; [split |].
  - apply generate_traffic_light_spec.
  - destruct (Z.le_gt_cases 0 num_points) as [Hn | Hn].
    + pose proof (Z.mul_div_le num_points 3 ltac:(lia)).
      pose proof (Z.div_pos num_points 3 Hn ltac:(lia)). lia.
    + assert (num_points / 3 < 0)%Z by (apply Z.div_lt_upper_bound; lia).
      lia.
  - repeat split;
      try (apply length_nil_inv);
      first [ apply generate_car_spec
            | apply generate_road_surface_spec
            | apply create_road_with_markings_spec
            | apply create_urban_road_surface_spec
            | apply create_parking_surface_spec
            | apply (generate_traffic_light_spec np center 0 s)
            | apply (generate_car_spec np center yaw 0 s)
            | apply (generate_road_surface_spec np 0 s) ].
Qed.

(** C4 as stated fails for the traffic-light sampler: asked for 200 points
    it returns 198. *)
Lemma C4_counterexample_traffic_light_198 :
  length (fst (PointCloudProcessor._generate_traffic_light
                 Demo.demo_np (5, -2, 3.5) 200 1%Z)) = 198%nat /\
  198%nat <> Z.to_nat 200.
Proof. split; [vm_compute; reflexivity | vm_compute; discriminate]. Qed.

Lemma length_slice_to_nonneg {A : Type} (n : Z) (l : list A) :
  (0 <= n)%Z -> (Z.to_nat n <= length l)%nat ->
  length (slice_to n l) = Z.to_nat n.
Proof.
  intros Hn Hl. unfold slice_to.
  destruct (Z.leb_spec 0 n); [| lia].
  rewrite length_firstn. lia.
Qed.

(** For a positive budget the table of [_create_traffic_scene] has exactly
    [num_points] rows in each of its six columns. *)
Lemma create_traffic_scene_rows np num_points s :
  (1 <= num_points)%Z ->
  exists t,
    fst (PointCloudProcessor._create_traffic_scene np num_points s) = Ok t /\
    num_rows t = Z.to_nat num_points /\
    length (col_y t) = Z.to_nat num_points /\
    length (col_z t) = Z.to_nat num_points /\
    length (col_intensity t) = Z.to_nat num_points /\
    length (col_label t) = Z.to_nat num_points /\
    length (col_timestamp t) = Z.to_nat num_points.
Proof.
  intros Hn. unfold PointCloudProcessor._create_traffic_scene, bind, ret.
  destruct (create_traffic_scene_accumulate_spec np num_points s)
    as (objs & road & s' & E & [Lo _] & [Lr _]).
  rewrite E. cbn [fst].
  assert (Hp : length (slice_to num_points (objs ++ road)) =
               Z.to_nat num_points).
  { apply length_slice_to_nonneg; [lia |]. rewrite length_app. lia. }
  assert (Hl : length (slice_to num_points
                 (traffic_scene_object_labels ++ repeat "road" (length road)))
               = Z.to_nat num_points).
  { apply length_slice_to_nonneg; [lia |].
    rewrite length_app, repeat_length.
    replace (length traffic_scene_object_labels) with 2394%nat
      by reflexivity.
    lia. }
  unfold PointCloudProcessor._to_pyarrow_table.
  destruct (slice_to num_points (objs ++ road)) as [|p ps] eqn:Ep.
  - simpl in Hp. lia.
  - rewrite Hl, Hp, Nat.eqb_refl.
    eexists. split; [reflexivity |].
    unfold num_rows.
    cbn [col_x col_y col_z col_intensity col_label col_timestamp].
    rewrite !length_map, repeat_length, Hp, Hl. repeat split.
Qed.

(** C10 (code defect): [num_points = 0] is a budget the claim covers, and
    there [_create_traffic_scene] returns no table: the slice [points[:0]]
    is empty, [np.array([])] has a single axis, and [points_array[:, 0]]
    raises [IndexError]. *)
Theorem C10_zero_budget_raises_IndexError (np : NumPy) (s : rng np) :
  fst (PointCloudProcessor._create_traffic_scene np 0 s) = Err IndexError.
Proof.
  unfold PointCloudProcessor._create_traffic_scene, bind, ret.
  destruct (PointCloudProcessor._create_traffic_scene_accumulate np 0 s)
    as [[points labels] s'].
  reflexivity.
Qed.

(** The demonstration generator draws within the requested interval. *)
Lemma demo_uniform_in_range : uniform_in_range Demo.demo_np.
Proof.
  intros lo hi s Hle. simpl.
  assert (Hu : 0 <= Demo.unit_draw s /\ Demo.unit_draw s <= 1).
  { unfold Demo.unit_draw.
    pose proof (Z.mod_pos_bound s 1000 ltac:(lia)) as [H0 H1].
    assert (H0' : inject_Z 0 <= inject_Z (s mod 1000))
      by (rewrite <- Zle_Qle; lia).
    assert (H1' : inject_Z (s mod 1000) <= inject_Z 1000)
      by (rewrite <- Zle_Qle; lia).
    change (inject_Z 0) with 0 in H0'. change (inject_Z 1000) with 1000 in H1'.
    split.
    - apply Qle_shift_div_l; [reflexivity | lra].
    - apply Qle_shift_div_r; [reflexivity | lra]. }
  destruct Hu as [H0 H1].
  assert (0 <= (hi - lo) * Demo.unit_draw s)
    by (apply Qmult_le_0_compat; lra).
  assert (0 <= (hi - lo) * (1 - Demo.unit_draw s))
    by (apply Qmult_le_0_compat; lra).
  split; lra.
Qed.

Lemma Forall_sampled np (points : list Point) :
  uniform_in_range np -> Forall (sampled np) points ->
  Forall intensity_ok points.
Proof.
  intros Hr. apply Forall_impl. intros p Hp. exact (Hp Hr).
Qed.

(** C5: when the uniform draws lie in their intervals, every point sampled
    for any preset, by any sampler of either class (objects and surface
    fillers alike), has its intensity in [0, 1]. *)
Theorem C5_intensity_in_unit_interval (np : NumPy) (preset : string)
  (num_points : Z) (s : rng np) :
  uniform_in_range np -> In preset presets ->
  intensities_in_range np preset num_points s.
Proof.
  intros Hr Hin. split.
  - destruct (generate_preset_data_spec np preset num_points s Hin)
      as (ap & al & so & s1 & surface & s2 & b & E & Es & Eb & Eg).
    destruct (objects_phase_spec np preset s Hin)
      as (ap' & al' & so' & s1' & E' & [Hok _] & _).
    rewrite E in E'. injection E' as <- <- <- <-. cbn [fst] in Hok.
    pose proof (surface_filler_spec np preset
                  (num_points - Z.of_nat (length ap))%Z s1) as [_ Fs].
    rewrite Es in Fs. cbn [fst] in Fs.
    exists (ap ++ surface). eexists. rewrite Eg.
    split; [reflexivity |]. split; [reflexivity |].
    apply Forall_app. split; apply (Forall_sampled np); assumption.
  - destruct (create_traffic_scene_accumulate_spec np num_points s)
      as (objs & road & s' & E & [_ Fo] & [_ Fr]).
    rewrite E. cbn [fst].
    apply Forall_app. split; apply (Forall_sampled np); assumption.
Qed.

Lemma C5_intensity_in_unit_interval_witness :
  intensities_in_range Demo.demo_np "parking_lot" 1500 7%Z.
Proof.
  apply (C5_intensity_in_unit_interval Demo.demo_np "parking_lot" 1500 7%Z).
  - exact demo_uniform_in_range.
  - simpl. auto.
Defined.

(** The float32 copy of a point keeps its intensity in [0, 1] when the cast
    is monotone and exact at the two ends. *)
Lemma float32_keeps_intensity np (points : list Point) :
  float32_monotone np -> Forall intensity_ok points ->
  Forall intensity_ok (to_float32 np points).
Proof.
  intros (Hmono & H0 & H1) Hpts. unfold to_float32.
  rewrite Forall_map. revert Hpts. apply Forall_impl.
  intros p [Hlo Hhi]. unfold intensity_ok. simpl. split.
  - rewrite <- H0. now apply Hmono.
  - rewrite <- H1. now apply Hmono.
Qed.

(** C6: a scene generated for a known preset is never empty, and its
    [scene_bounds] are ordered on each axis and contain every accumulated
    point, ends included. *)
Theorem C6_scene_bounds (np : NumPy) (preset : string) (num_points : Z)
  (s : rng np) :
  In preset presets -> bounds_hold np preset num_points s.
Proof.
  intros Hin.
  destruct (generate_preset_data_spec np preset num_points s Hin)
    as (ap & al & so & s1 & surface & s2 & b & E & Es & Eb & Eg).
  destruct (objects_phase_spec np preset s Hin)
    as (ap' & al' & so' & s1' & E' & _ & Hne).
  rewrite E in E'. injection E' as <- <- <- <-.
  assert (Hne' : ap ++ surface <> []).
  { destruct ap; [congruence | discriminate]. }
  destruct (calculate_bounds_spec (ap ++ surface) Hne') as (b' & Eb' & Ho & Hi).
  rewrite Eb in Eb'. injection Eb' as <-.
  exists (ap ++ surface). eexists. rewrite Eg.
  split; [reflexivity |]. split; [reflexivity |].
  cbn [composed_scene metadata scene_bounds]. auto.
Qed.

Lemma C6_scene_bounds_witness :
  bounds_hold Demo.demo_np "urban_street" 4000 3%Z.
Proof.
  apply (C6_scene_bounds Demo.demo_np "urban_street" 4000 3%Z).
  simpl. auto.
Defined.

(** With a budget that covers the 2394 object points, the table of
    [_create_traffic_scene] holds all accumulated labels: those of the three
    traffic lights and six cars, then ["road"] for the fill. *)
Lemma create_traffic_scene_labels np num_points s :
  (2394 <= num_points)%Z ->
  exists t,
    fst (PointCloudProcessor._create_traffic_scene np num_points s) = Ok t /\
    num_rows t = Z.to_nat num_points /\
    col_label t =
      traffic_scene_object_labels ++
      repeat "road" (Z.to_nat (num_points - 2394)).
Proof.
  intros Hn. unfold PointCloudProcessor._create_traffic_scene, bind, ret.
  destruct (create_traffic_scene_accumulate_spec np num_points s)
    as (objs & road & s' & E & [Lo _] & [Lr _]).
  rewrite E. cbn [fst]. rewrite Lr.
  assert (Hlab : length (traffic_scene_object_labels ++
                         repeat "road" (Z.to_nat (num_points - 2394))) =
                 Z.to_nat num_points).
  { rewrite length_app, repeat_length.
    replace (length traffic_scene_object_labels) with 2394%nat
      by reflexivity.
    lia. }
  assert (Hpts : length (objs ++ road) = Z.to_nat num_points)
    by (rewrite length_app; lia).
  unfold slice_to. destruct (Z.leb_spec 0 num_points); [| lia].
  rewrite !firstn_all2 by lia.
  unfold PointCloudProcessor._to_pyarrow_table.
  destruct (objs ++ road) as [|p ps] eqn:Ep; [simpl in Hpts; lia |].
  rewrite Hlab, Hpts, Nat.eqb_refl.
  eexists. split; [reflexivity |]. unfold num_rows. cbn [col_x col_label].
  rewrite length_map. auto.
Qed.

(** C7, as amended: generated by
    [HighPerformanceSampleGenerator._generate_preset_data], the preset
    ["traffic_scene"] with [num_points = 12000] yields a scene with exactly
    4 objects of type traffic_light and 6 of type vehicle, ten objects in
    all with pairwise distinct ids; the 2470 object points carry the object
    ids as labels, none of which is ["road_surface"], and the remaining 9530
    points form one group labelled ["road_surface"], for 12000 points in
    total.  [PointCloudProcessor.generate_sample_data], for the same preset
    and budget, returns a table of 12000 rows without scene objects: 2394
    points labelled for three traffic lights and six cars, then 9606 points
    labelled ["road"]. *)
Theorem C7_traffic_scene_12000 (np : NumPy) (s : rng np) :
  traffic_scene_12000 np s /\ table_traffic_scene_12000 np s.
Proof.
  split.
  { unfold traffic_scene_12000.
    destruct (generate_preset_data_spec np "traffic_scene" 12000 s)
      as (ap & al & so & s1 & surface & s2 & b & E & Es & Eb & Eg);
      [simpl; auto |].
    destruct (traffic_intersection_objects_spec np s)
      as (pts & s1' & E' & L & _).
    change (objects_phase np "traffic_scene" s) with
      (HighPerformanceSampleGenerator.traffic_intersection_objects np s) in E.
    rewrite E' in E. injection E as <- <- <- <-.
    pose proof (surface_filler_spec np "traffic_scene"
                  (12000 - Z.of_nat (length pts))%Z s1') as [Ls _].
    rewrite Es in Ls. cbn [fst] in Ls. rewrite L in Ls.
    change (Z.to_nat (12000 - Z.of_nat 2470)) with (Z.to_nat 9530) in Ls.
    rewrite Eg. eexists. split; [reflexivity |].
    cbn [composed_scene scene_objects scene_labels scene_points metadata
         num_objects total_points].
    rewrite length_to_float32, length_app, L, Ls.
    split; [reflexivity |]. split; [reflexivity |].
    split; [reflexivity |]. split; [reflexivity |].
    split.
    { vm_compute.
      repeat (apply NoDup_cons;
              [ intro H; simpl in H;
                repeat (destruct H as [H | H]; [discriminate H |]);
                exact H |]).
      apply NoDup_nil. }
    split.
    { unfold traffic_intersection_scene_objects.
      repeat (apply Forall_cons; [eexists; reflexivity |]). apply Forall_nil. }
    split; [reflexivity |].
    split.
    { intro Hin.
      assert (Hb : existsb (String.eqb "road_surface")
                     (traffic_intersection_object_labels np) = true).
      { apply existsb_exists. exists "road_surface"%string.
        split; [exact Hin | apply String.eqb_refl]. }
      vm_compute in Hb. discriminate Hb. }
    split; [reflexivity |]. split; reflexivity. }
  unfold table_traffic_scene_12000.
  change (PointCloudProcessor.generate_sample_data np "traffic_scene" 12000 s)
    with (PointCloudProcessor._create_traffic_scene np 12000 s).
  destruct (create_traffic_scene_labels np 12000 s ltac:(lia))
    as (t & Et & Hrows & Hlab).
  exists t. split; [exact Et |]. split; [exact Hrows |].
  rewrite Hlab. vm_compute. reflexivity.
Qed.

(** C7 as stated fails for [PointCloudProcessor]: its table for
    ["traffic_scene"] with 12000 points carries the labels of three traffic
    lights, not four, and labels its fill ["road"]; no point is labelled
    ["road_surface"]. *)
Lemma C7_counterexample_table_has_three_lights :
  exists t,
    fst (PointCloudProcessor.generate_sample_data
           Demo.demo_np "traffic_scene" 12000 1%Z) = Ok t /\
    In "traffic_light_3"%string (col_label t) /\
    ~ In "traffic_light_4"%string (col_label t) /\
    In "road"%string (col_label t) /\
    ~ In "road_surface"%string (col_label t).
Proof.
  change (PointCloudProcessor.generate_sample_data
            Demo.demo_np "traffic_scene" 12000 1%Z)
    with (PointCloudProcessor._create_traffic_scene Demo.demo_np 12000 1%Z).
  destruct (create_traffic_scene_labels Demo.demo_np 12000 1%Z ltac:(lia))
    as (t & Et & _ & Hlab).
  exists t. split; [exact Et |]. rewrite Hlab.
  assert (Hmem : forall label : string,
            In label (traffic_scene_object_labels ++
                      repeat "road" (Z.to_nat (12000 - 2394))) <->
            existsb (String.eqb label)
              (traffic_scene_object_labels ++
               repeat "road" (Z.to_nat (12000 - 2394))) = true).
  { intros label. rewrite existsb_exists. split.
    - intros Hin. exists label. split; [exact Hin | apply String.eqb_refl].
    - intros (x & Hin & Heq). apply String.eqb_eq in Heq. now subst. }
  repeat split.
  - apply Hmem. vm_compute. reflexivity.
  - intro Hin. apply Hmem in Hin. vm_compute in Hin. discriminate Hin.
  - apply Hmem. vm_compute. reflexivity.
  - intro Hin. apply Hmem in Hin. vm_compute in Hin. discriminate Hin.
Qed.

Lemma read_file_write_file {T : Type} (path : string) (c : T) (fs : Files T) :
  read_file path (write_file path c fs) = Some c.
Proof. unfold write_file. simpl. now rewrite String.eqb_refl. Qed.

(** C8, as amended: if the [json] module loads what it dumped, the document
    saved by [_save_as_json], read back, holds the scene's [scene_objects],
    [metadata.total_points] and [metadata.num_objects] unchanged, as well as
    its [metadata.scene_bounds], points and labels; the scene's [scene_type]
    is not written to the document. *)
Theorem C8_json_round_trip (js : JsonLib) (output_dir : string) (data : Scene)
  (filename : string) (fs : Files (text js)) :
  json_round_trip js ->
  saved_document_faithful js output_dir data filename fs.
Proof.
  intros Hjs. unfold saved_document_faithful.
  unfold HighPerformanceSampleGenerator.load_json,
    HighPerformanceSampleGenerator._save_as_json.
  rewrite read_file_write_file, Hjs.
  do 2 eexists. split; [reflexivity |].
  repeat split; reflexivity.
Qed.

Lemma C8_json_round_trip_witness :
  saved_document_faithful Demo.demo_json "data/sample" Demo.demo_scene
    "parking_lot.json" [].
Proof.
  apply (C8_json_round_trip Demo.demo_json "data/sample" Demo.demo_scene
           "parking_lot.json" []).
  intro v. reflexivity.
Defined.

(** C8 as stated fails on its last part: the scene generated for
    ["traffic_scene"] has scene type ["traffic_intersection"], and the
    document saved from it and read back has no ["scene_type"] entry. *)
Lemma C8_counterexample_scene_type_not_saved :
  exists sc doc,
    fst (HighPerformanceSampleGenerator._generate_preset_data
           Demo.demo_np "traffic_scene" 2500 1%Z) = Ok sc /\
    HighPerformanceSampleGenerator.load_json Demo.demo_json
      "data/sample/traffic_scene.json"
      (HighPerformanceSampleGenerator._save_as_json Demo.demo_json
         "data/sample" sc "traffic_scene.json" []) = Some doc /\
    scene_type sc = "traffic_intersection"%string /\
    py_get "scene_type" doc = None.
Proof.
  destruct (generate_preset_data_spec Demo.demo_np "traffic_scene" 2500 1%Z)
    as (ap & al & so & s1 & surface & s2 & b & E & Es & Eb & Eg);
    [simpl; auto |].
  rewrite Eg. do 2 eexists. split; [reflexivity |].
  split; [reflexivity |]. split; reflexivity.
Qed.

(** C9: every object sampler returns the bounding box given by the
    placement and the declared dimensions, whatever points it draws; hence
    two runs of the traffic intersection or of the urban street list the
    same scene objects, bounding boxes included.  The sampled points do
    depend on the draws: two states of the demonstration generator give
    different points for the same traffic light. *)
Theorem C9_bounding_boxes_from_geometry :
  (forall np : NumPy,
     bboxes_from_geometry np /\
     same_objects_across_runs np "traffic_scene"
       (traffic_intersection_scene_objects np) /\
     same_objects_across_runs np "urban_street"
       (urban_street_scene_objects np)) /\
  fst (fst (HighPerformanceSampleGenerator._create_traffic_light_detailed
              Demo.demo_np (8, -3, 4) 0 1%Z)) <>
  fst (fst (HighPerformanceSampleGenerator._create_traffic_light_detailed
              Demo.demo_np (8, -3, 4) 0 2%Z)).
Proof.
  split.
  - intros np. split; [| split].
    + intros center size rotation vehicle_type s.
      split; [exact (proj2 (create_traffic_light_detailed_spec
                              np center rotation s)) |].
      split; [exact (proj2 (create_vehicle_detailed_spec
                              np center rotation vehicle_type s)) |].
      split; [exact (proj2 (create_building_spec np center size s)) |].
      split; [exact (proj2 (create_lamp_post_spec np center s)) |].
      split; [exact (proj2 (create_bench_spec np center s)) |].
      exact (proj2 (create_light_pole_spec np center s)).
    + intros n1 n2 s1 s2.
      destruct (generate_preset_data_spec np "traffic_scene" n1 s1)
        as (ap1 & al1 & so1 & t1 & sf1 & u1 & b1 & E1 & _ & _ & G1);
        [simpl; auto |].
      destruct (generate_preset_data_spec np "traffic_scene" n2 s2)
        as (ap2 & al2 & so2 & t2 & sf2 & u2 & b2 & E2 & _ & _ & G2);
        [simpl; auto |].
      destruct (traffic_intersection_objects_spec np s1) as (? & ? & E1' & _).
      destruct (traffic_intersection_objects_spec np s2) as (? & ? & E2' & _).
      change (objects_phase np "traffic_scene") with
        (HighPerformanceSampleGenerator.traffic_intersection_objects np)
        in E1, E2.
      rewrite E1' in E1. rewrite E2' in E2.
      injection E1 as <- <- <- <-. injection E2 as <- <- <- <-.
      rewrite G1, G2. do 2 eexists. repeat split; reflexivity.
    + intros n1 n2 s1 s2.
      destruct (generate_preset_data_spec np "urban_street" n1 s1)
        as (ap1 & al1 & so1 & t1 & sf1 & u1 & b1 & E1 & _ & _ & G1);
        [simpl; auto |].
      destruct (generate_preset_data_spec np "urban_street" n2 s2)
        as (ap2 & al2 & so2 & t2 & sf2 & u2 & b2 & E2 & _ & _ & G2);
        [simpl; auto |].
      destruct (urban_street_objects_spec np s1) as (? & ? & E1' & _).
      destruct (urban_street_objects_spec np s2) as (? & ? & E2' & _).
      change (objects_phase np "urban_street") with
        (HighPerformanceSampleGenerator.urban_street_objects np) in E1, E2.
      rewrite E1' in E1. rewrite E2' in E2.
      injection E1 as <- <- <- <-. injection E2 as <- <- <- <-.
      rewrite G1, G2. do 2 eexists. repeat split; reflexivity.
  - intro H. apply (f_equal (@hd_error Point)) in H.
    vm_compute in H. discriminate H.
Qed.

(** * Further properties *)

Lemma for_in_app_list {S A St : Type} (body : A -> St -> M S St)
  (l l' : list A) st s :
  for_in (l ++ l') body st s =
  for_in l' body (fst (for_in l body st s)) (snd (for_in l body st s)).
Proof.
  revert st s. induction l as [|a l IH]; intros st s; [reflexivity |].
  simpl app. rewrite !for_in_cons. apply IH.
Qed.

Lemma for_in_map {S A B St : Type} (g : B -> A) (body : A -> St -> M S St)
  (l : list B) st s :
  for_in (map g l) body st s = for_in l (fun b => body (g b)) st s.
Proof.
  revert st s. induction l as [|b l IH]; intros st s; [reflexivity |].
  simpl map. rewrite !for_in_cons. apply IH.
Qed.

(** Two nested loops visit the pairs of [list_prod] in order. *)
Lemma for_in_nested {S A B St : Type} (body : A -> B -> St -> M S St)
  (l1 : list A) (l2 : list B) st s :
  for_in l1 (fun a st => for_in l2 (fun b st => body a b st) st) st s =
  for_in (list_prod l1 l2) (fun ab st => body (fst ab) (snd ab) st) st s.
Proof.
  revert st s. induction l1 as [|a l1 IH]; intros st s; [reflexivity |].
  simpl list_prod. rewrite for_in_app_list, for_in_cons, for_in_map.
  cbn [fst snd]. apply IH.
Qed.

(** ** Subsequences *)

Lemma subseq_In {A : Type} (l' l : list A) (a : A) :
  subseq l' l -> In a l' -> In a l.
Proof.
  induction 1 as [| b l' l _ IH | b l' l _ IH]; simpl; intuition.
Qed.

Lemma subseq_NoDup {A : Type} (l' l : list A) :
  subseq l' l -> NoDup l -> NoDup l'.
Proof.
  induction 1 as [| b l' l Hs IH | b l' l Hs IH]; intros Hnd.
  - constructor.
  - inversion Hnd; subst. auto.
  - inversion Hnd; subst. constructor; [| auto].
    intro Hin. eauto using subseq_In.
Qed.

Lemma subseq_map {A B : Type} (f : A -> B) (l' l : list A) :
  subseq l' l -> subseq (map f l') (map f l).
Proof. induction 1; simpl; constructor; assumption. Qed.

Lemma subseq_app {A : Type} (l1' l1 l2 : list A) :
  subseq l1' l1 -> subseq (l1' ++ l2) (l1 ++ l2).
Proof.
  induction 1; simpl; try (constructor; assumption).
  induction l2; constructor; assumption.
Qed.

Lemma subseq_length {A : Type} (l' l : list A) :
  subseq l' l -> (length l' <= length l)%nat.
Proof. induction 1; simpl; lia. Qed.

(** ** Scene objects and their labels *)

Lemma declared_points_count (d : list (string * pyval)) (k : nat) :
  assoc_get "num_points" d = Some (py_count k) ->
  declared_points (PDict d) = k.
Proof.
  intros H. unfold declared_points. simpl. rewrite H.
  unfold py_count, py_int. simpl. rewrite Z.quot_1_r. apply Nat2Z.id.
Qed.

Lemma vehicle_density_bounds (vehicle_type : string) :
  (200 <= vehicle_density vehicle_type <= 400)%nat.
Proof.
  unfold vehicle_density, HighPerformanceSampleGenerator.vehicle_dimensions.
  repeat match goal with |- context [if ?b then _ else _] => destruct b end;
    simpl; lia.
Qed.

Lemma object_labels_app (l1 l2 : list pyval) :
  object_labels (l1 ++ l2) = object_labels l1 ++ object_labels l2.
Proof. apply flat_map_app. Qed.

Lemma object_labels_parked (chosen : list ((Z * Z) * string)) :
  object_labels (map parked_vehicle_object chosen) =
  flat_map (fun cv => repeat (cell_id (fst cv)) (vehicle_density (snd cv)))
           chosen.
Proof.
  induction chosen as [|[c ty] chosen IH]; [reflexivity |].
  simpl map. change (object_labels (?o :: ?l)) with
    (repeat (object_id o) (declared_points o) ++ object_labels l).
  rewrite IH. simpl flat_map. f_equal.
  unfold parked_vehicle_object.
  rewrite (declared_points_count _ (vehicle_density ty)); reflexivity.
Qed.

(** ** The parking lot *)

Section ParkingLot.
Variable np : NumPy.
Import HighPerformanceSampleGenerator.

(** A parking space is left empty, or receives one vehicle of the drawn
    type. *)
Lemma parking_space_spec (c : Z * Z) ap al so s :
  (exists s', parking_space np 4 6 (fst c) (snd c) (ap, al, so) s =
              ((ap, al, so), s')) \/
  (exists new ty s',
      parking_space np 4 6 (fst c) (snd c) (ap, al, so) s =
        ((ap ++ new, al ++ repeat (cell_id c) (vehicle_density ty),
          so ++ [parked_vehicle_object (c, ty)]), s') /\
      sampler_spec np (vehicle_density ty) new).
Proof.
  unfold parking_space, bind, ret.
  destruct (random np s) as [r s1].
  destruct (Qltb r 0.75); [right | left; eauto].
  destruct (choice np vehicle_types s1) as [ty s2].
  match goal with
  | |- context [_create_vehicle_detailed np ?p ?r ?t s2] =>
      destruct (create_vehicle_detailed_spec np p r t s2) as [[L F] B];
      destruct (_create_vehicle_detailed np p r t s2) as [[pts bbox] s3]
  end.
  simpl in L, F, B. subst bbox.
  exists pts, ty, s3. split; [| split; assumption].
  unfold py_len. rewrite L. reflexivity.
Qed.

(** The vehicles placed on a run of parking spaces: some of the spaces, in
    order, each with the type drawn for it. *)
Lemma parking_grid_spec (cells : list (Z * Z)) : forall ap al so s,
  exists chosen new s',
    subseq (map fst chosen) cells /\
    for_in cells
      (fun c acc => parking_space np 4 6 (fst c) (snd c) acc) (ap, al, so) s =
      ((ap ++ new,
        al ++ flat_map (fun cv => repeat (cell_id (fst cv))
                                         (vehicle_density (snd cv))) chosen,
        so ++ map parked_vehicle_object chosen), s') /\
    sampler_spec np (list_sum (map (fun cv => vehicle_density (snd cv)) chosen))
                 new.
Proof.
  induction cells as [|c cells IH]; intros ap al so s.
  - exists [], [], s. simpl. rewrite !app_nil_r.
    repeat split; constructor.
  - rewrite for_in_cons.
    destruct (parking_space_spec c ap al so s)
      as [(s1 & E) | (n1 & ty & s1 & E & L1 & F1)]; rewrite E; cbn [fst snd].
    + destruct (IH ap al so s1) as (chosen & new & s' & Hs & E' & Hn).
      exists chosen, new, s'. split; [now constructor | split; assumption].
    + destruct (IH (ap ++ n1) (al ++ repeat (cell_id c) (vehicle_density ty))
                  (so ++ [parked_vehicle_object (c, ty)]) s1)
        as (chosen & n2 & s' & Hs & E' & L2 & F2).
      exists ((c, ty) :: chosen), (n1 ++ n2), s'.
      split; [simpl; now constructor |]. split.
      * rewrite E'. simpl. now rewrite <- !app_assoc.
      * split; [rewrite length_app; simpl; lia | now apply Forall_app].
Qed.

(** The objects of the parking lot: vehicles on some of the 24 spaces, in
    row-major order, followed by the five light poles. *)
Lemma parking_lot_objects_structure s :
  exists chosen pts s',
    subseq (map fst chosen) parking_cells /\
    parking_lot_objects np s =
      ((pts, object_labels (parking_lot_scene_objects chosen),
        parking_lot_scene_objects chosen), s') /\
    sampler_spec np
      (list_sum (map (fun cv => vehicle_density (snd cv)) chosen) + 400) pts.
Proof.
  unfold parking_lot_objects. unfold bind at 1. cbn beta zeta.
  rewrite (for_in_nested (fun row space acc => parking_space np 4 6 row space acc)).
  destruct (parking_grid_spec parking_cells [] [] [] s)
    as (chosen & grid & s1 & Hs & E & Lg & Fg).
  fold parking_cells. rewrite E. cbn beta iota.
  match goal with
  | |- context [for_in ?l ?b (?ap, ?al, ?so) ?st] =>
      pose proof (fun Hb =>
        object_loop np (fun _ : (Q * Q * Q) * string * string => 80%nat)
          (@snd ((Q * Q * Q) * string) string) infrastructure_object b Hb
          l ap al so st) as Hloop
  end.
  destruct Hloop as (poles & s2 & E2 & Lp & Fp).
  { intros [[pos type] id] ap' al' so' s0. unfold bind, ret.
    destruct (create_light_pole_spec np pos s0) as [[L F] B].
    destruct (_create_light_pole np pos s0) as [[pts bbox] s3].
    simpl in L, F, B. subst bbox. unfold py_len. rewrite L.
    do 2 eexists. split; [reflexivity | split; assumption]. }
  rewrite E2. exists chosen, (([] ++ grid) ++ poles), s2.
  split; [exact Hs |]. split.
  - f_equal. f_equal. f_equal.
    unfold parking_lot_scene_objects.
    rewrite object_labels_app, object_labels_parked. reflexivity.
  - split; [| apply Forall_app; split; assumption].
    rewrite length_app, Lp. simpl length. rewrite Lg. reflexivity.
Qed.

End ParkingLot.

(** ** The structure of a generated scene *)

Lemma length_object_labels (objs : list pyval) :
  length (object_labels objs) = declared_total objs.
Proof.
  unfold object_labels, declared_total.
  induction objs as [|o objs IH]; [reflexivity |].
  simpl. rewrite length_app, repeat_length, IH. reflexivity.
Qed.

Lemma declared_total_app (l1 l2 : list pyval) :
  declared_total (l1 ++ l2) = (declared_total l1 + declared_total l2)%nat.
Proof. unfold declared_total. now rewrite map_app, list_sum_app. Qed.

Lemma declared_total_parked (chosen : list ((Z * Z) * string)) :
  declared_total (map parked_vehicle_object chosen) =
  list_sum (map (fun cv => vehicle_density (snd cv)) chosen).
Proof.
  unfold declared_total.
  induction chosen as [|[c ty] chosen IH]; [reflexivity |].
  simpl. rewrite IH. f_equal.
  unfold parked_vehicle_object.
  apply declared_points_count. reflexivity.
Qed.

Lemma declared_total_parked_le (chosen : list ((Z * Z) * string)) :
  (declared_total (map parked_vehicle_object chosen) <= 400 * length chosen)%nat.
Proof.
  rewrite declared_total_parked.
  induction chosen as [|[c ty] chosen IH]; simpl; [lia |].
  pose proof (vehicle_density_bounds ty). lia.
Qed.

(** The ids of the parking lot's objects are among the 24 space ids and the
    five pole ids, all distinct and none of them the surface label. *)
Lemma parking_ids (chosen : list ((Z * Z) * string)) :
  subseq (map fst chosen) parking_cells ->
  NoDup (map object_id (parking_lot_scene_objects chosen)) /\
  ~ In "parking_surface"%string
       (map object_id (parking_lot_scene_objects chosen)).
Proof.
  intros Hs.
  assert (Hsub : subseq (map object_id (parking_lot_scene_objects chosen))
                   (map cell_id parking_cells ++
                    map object_id (map infrastructure_object
                      HighPerformanceSampleGenerator.infrastructure))).
  { unfold parking_lot_scene_objects. rewrite map_app.
    apply subseq_app.
    replace (map object_id (map parked_vehicle_object chosen))
      with (map cell_id (map fst chosen)).
    - now apply subseq_map.
    - rewrite !map_map. apply map_ext. intros [c ty]. reflexivity. }
  split.
  - apply (subseq_NoDup _ _ Hsub). vm_compute.
    repeat (apply NoDup_cons;
            [ intro H; simpl in H;
              repeat (destruct H as [H | H]; [discriminate H |]);
              exact H |]).
    apply NoDup_nil.
  - intro Hin. apply (subseq_In _ _ _ Hsub) in Hin.
    vm_compute in Hin.
    repeat (destruct Hin as [Hin | Hin]; [discriminate Hin |]).
    exact Hin.
Qed.

Lemma count_occ_labels_absent (objs : list pyval) (id : string) :
  ~ In id (map object_id objs) ->
  count_occ string_dec (object_labels objs) id = 0%nat.
Proof.
  intros Hnot. apply count_occ_not_In. intro Hin. apply Hnot.
  unfold object_labels in Hin. apply in_flat_map in Hin.
  destruct Hin as (o & Ho & Hr). apply repeat_spec in Hr. subst id.
  now apply in_map.
Qed.

(** With distinct ids, an object's id labels as many points as the object
    declares. *)
Lemma count_occ_object_labels (objs : list pyval) (o : pyval) :
  NoDup (map object_id objs) -> In o objs ->
  count_occ string_dec (object_labels objs) (object_id o) = declared_points o.
Proof.
  induction objs as [|o0 objs IH]; intros Hnd Hin; [contradiction |].
  simpl in Hnd. inversion Hnd as [|? ? Hnot Hnd']; subst.
  change (object_labels (o0 :: objs)) with
    (repeat (object_id o0) (declared_points o0) ++ object_labels objs).
  rewrite count_occ_app.
  destruct Hin as [-> | Hin].
  - rewrite count_occ_repeat_eq by reflexivity.
    rewrite count_occ_labels_absent by assumption. lia.
  - rewrite count_occ_repeat_neq.
    + now rewrite IH.
    + intro Heq. apply Hnot. rewrite <- Heq. now apply in_map.
Qed.

Section Structure.
Variable np : NumPy.
Import HighPerformanceSampleGenerator.

Ltac nodup_strings :=
  vm_compute;
  repeat (apply NoDup_cons;
          [ let H := fresh in
            intro H; simpl in H;
            repeat (destruct H as [H | H]; [discriminate H |]);
            exact H |]);
  apply NoDup_nil.

Ltac absent_string :=
  let H := fresh in
  intro H; vm_compute in H;
  repeat (destruct H as [H | H]; [discriminate H |]);
  exact H.

(** The placed objects of every preset: labels read off the objects, one
    point per declared point, distinct ids. *)
Lemma objects_phase_structure preset s :
  In preset presets ->
  exists ap so s1,
    objects_phase np preset s = ((ap, object_labels so, so), s1) /\
    length ap = declared_total so /\
    NoDup (map object_id so) /\
    ~ In (surface_label preset) (map object_id so).
Proof.
  intros [<- | [<- | [<- | []]]]; unfold objects_phase; simpl String.eqb;
    cbn iota.
  - destruct (traffic_intersection_objects_spec np s) as (pts & s1 & E & L & _).
    exists pts, (traffic_intersection_scene_objects np), s1.
    split; [exact E |]. split; [rewrite L; reflexivity |].
    split; [nodup_strings | absent_string].
  - destruct (urban_street_objects_spec np s) as (pts & s1 & E & L & _).
    exists pts, (urban_street_scene_objects np), s1.
    split; [exact E |]. split; [rewrite L; reflexivity |].
    split; [nodup_strings | absent_string].
  - destruct (parking_lot_objects_structure np s)
      as (chosen & pts & s1 & Hs & E & L & _).
    exists pts, (parking_lot_scene_objects chosen), s1.
    split; [exact E |]. split.
    + rewrite L. unfold parking_lot_scene_objects.
      rewrite declared_total_app, declared_total_parked. reflexivity.
    + apply parking_ids. exact Hs.
Qed.

End Structure.

(** The scene of a known preset, with the structure of its objects phase. *)
Lemma generated_scene np preset num_points s :
  In preset presets ->
  exists ap so surface b s2,
    HighPerformanceSampleGenerator._generate_preset_data np preset num_points s
      = (Ok (composed_scene np preset ap (object_labels so) so surface b), s2) /\
    length ap = declared_total so /\
    length surface = Z.to_nat (num_points - Z.of_nat (declared_total so)) /\
    NoDup (map object_id so) /\
    ~ In (surface_label preset) (map object_id so).
Proof.
  intros Hin.
  destruct (generate_preset_data_spec np preset num_points s Hin)
    as (ap & al & so & s1 & surface & s2 & b & E & Es & Eb & Eg).
  destruct (objects_phase_structure np preset s Hin)
    as (ap' & so' & s1' & E' & L & Hnd & Hsurf).
  rewrite E in E'. injection E' as -> -> -> ->.
  pose proof (surface_filler_spec np preset
                (num_points - Z.of_nat (length ap'))%Z s1') as [Ls _].
  rewrite Es in Ls. cbn [fst] in Ls. rewrite L in Ls.
  exists ap', so', surface, b, s2. auto.
Qed.

(** X1: in every scene generated for a known preset, the labels are the id
    of each scene object repeated once per point the object declares, in
    object order, followed by the surface label for what is left of the
    budget; the numbers of points and of labels agree with each other and
    with the metadata. *)
Theorem X1_labels_follow_scene_objects (np : NumPy) (preset : string)
  (num_points : Z) (s : rng np) :
  In preset presets -> scene_structure np preset num_points s.
Proof.
  intros Hin.
  destruct (generated_scene np preset num_points s Hin)
    as (ap & so & surface & b & s2 & Eg & L & Ls & _ & _).
  unfold scene_structure. rewrite Eg. eexists. split; [reflexivity |].
  cbn [composed_scene scene_objects scene_labels scene_points metadata
       total_points num_objects].
  rewrite length_to_float32, !length_app, repeat_length,
    length_object_labels, L, Ls.
  repeat split.
Qed.

Lemma X1_labels_follow_scene_objects_witness :
  scene_structure Demo.demo_np "parking_lot" 5000 11%Z.
Proof.
  apply (X1_labels_follow_scene_objects Demo.demo_np "parking_lot" 5000 11%Z).
  simpl. auto.
Defined.

(** X2: in every scene generated for a known preset the object ids are
    pairwise distinct, none of them is the surface label, and the label of
    an object is carried by exactly as many points as the object's
    [num_points] entry says. *)
Theorem X2_object_ids_distinct (np : NumPy) (preset : string)
  (num_points : Z) (s : rng np) :
  In preset presets -> ids_distinct np preset num_points s.
Proof.
  intros Hin.
  destruct (generated_scene np preset num_points s Hin)
    as (ap & so & surface & b & s2 & Eg & L & Ls & Hnd & Hsurf).
  unfold ids_distinct. rewrite Eg. eexists. split; [reflexivity |].
  cbn [composed_scene scene_objects scene_labels].
  split; [exact Hnd |]. split; [exact Hsurf |].
  intros o Ho. rewrite count_occ_app, count_occ_object_labels by assumption.
  rewrite count_occ_repeat_neq; [lia |].
  intro Heq. apply Hsurf. rewrite <- Heq. now apply in_map.
Qed.

Lemma X2_object_ids_distinct_witness :
  ids_distinct Demo.demo_np "urban_street" 4000 5%Z.
Proof.
  apply (X2_object_ids_distinct Demo.demo_np "urban_street" 4000 5%Z).
  simpl. auto.
Defined.

(** X3: the scene objects of a parking lot are vehicles parked on some of
    the 24 spaces of the grid, in row-major order and at most one per space,
    followed by the five light poles; the scene has between 5 and 29
    objects, which declare between 400 and 10000 points. *)
Theorem X3_parking_lot_structure (np : NumPy) (num_points : Z) (s : rng np) :
  parking_lot_structure np num_points s.
Proof.
  destruct (generate_preset_data_spec np "parking_lot" num_points s)
    as (ap & al & so & s1 & surface & s2 & b & E & Es & Eb & Eg);
    [simpl; auto |].
  destruct (parking_lot_objects_structure np s)
    as (chosen & pts & s1' & Hs & E' & _).
  change (objects_phase np "parking_lot" s) with
    (HighPerformanceSampleGenerator.parking_lot_objects np s) in E.
  rewrite E' in E. injection E as <- <- <- <-.
  unfold parking_lot_structure. rewrite Eg. exists
    (composed_scene np "parking_lot" pts
       (object_labels (parking_lot_scene_objects chosen))
       (parking_lot_scene_objects chosen) surface b), chosen.
  split; [reflexivity |]. split; [exact Hs |]. split; [reflexivity |].
  cbn [composed_scene scene_objects metadata num_objects].
  pose proof (subseq_length _ _ Hs) as Hlen.
  rewrite length_map in Hlen.
  change (length parking_cells) with 24%nat in Hlen.
  unfold parking_lot_scene_objects.
  rewrite length_app, !length_map, declared_total_app.
  pose proof (declared_total_parked_le chosen).
  change (length HighPerformanceSampleGenerator.infrastructure) with 5%nat.
  change (declared_total (map infrastructure_object
            HighPerformanceSampleGenerator.infrastructure)) with 400%nat.
  change (Z.to_nat 10000) with (400 * 24 + 400)%nat.
  lia.
Qed.

(** The placed objects of a known preset take at most 10000 points. *)
Lemma footprint_at_most_10000 np preset s ap al so s1 :
  In preset presets ->
  objects_phase np preset s = ((ap, al, so), s1) ->
  (Z.of_nat (length ap) <= 10000)%Z.
Proof.
  intros [<- | [<- | [<- | []]]] E.
  - change (objects_phase np "traffic_scene" s) with
      (HighPerformanceSampleGenerator.traffic_intersection_objects np s) in E.
    destruct (traffic_intersection_objects_spec np s) as (pts & s' & E' & L & _).
    rewrite E' in E. injection E as <- _ _ _. rewrite L. lia.
  - change (objects_phase np "urban_street" s) with
      (HighPerformanceSampleGenerator.urban_street_objects np s) in E.
    destruct (urban_street_objects_spec np s) as (pts & s' & E' & L & _).
    rewrite E' in E. injection E as <- _ _ _. rewrite L. lia.
  - change (objects_phase np "parking_lot" s) with
      (HighPerformanceSampleGenerator.parking_lot_objects np s) in E.
    destruct (parking_lot_objects_structure np s)
      as (chosen & pts & s' & Hs & E' & L & _).
    rewrite E' in E. injection E as <- _ _ _. rewrite L.
    pose proof (subseq_length _ _ Hs) as Hlen.
    rewrite length_map in Hlen.
    change (length parking_cells) with 24%nat in Hlen.
    pose proof (declared_total_parked_le chosen) as Hd.
    rewrite declared_total_parked in Hd. lia.
Qed.

(** X4: with a budget of at least 10000 points (the budget of the command
    line for a single preset; [generate_all_presets] uses 12000, 15000 and
    18000), the scene of every known preset has exactly [num_points] points
    and as many labels, whatever the random draws. *)
Theorem X4_exact_budget_from_10000 (np : NumPy) (preset : string)
  (num_points : Z) (s : rng np) :
  In preset presets -> (10000 <= num_points)%Z ->
  exact_budget np preset num_points s.
Proof.
  intros Hin Hn.
  destruct (generate_preset_data_spec np preset num_points s Hin)
    as (ap & al & so & s1 & surface & s2 & b & E & Es & Eb & Eg).
  pose proof (footprint_at_most_10000 np preset s ap al so s1 Hin E) as Hfoot.
  destruct (objects_phase_spec np preset s Hin)
    as (ap' & al' & so' & s1' & E' & [_ Hal] & _).
  rewrite E in E'. injection E' as <- <- <- <-. cbn [fst snd] in Hal.
  pose proof (surface_filler_spec np preset
                (num_points - Z.of_nat (length ap))%Z s1) as [Ls _].
  rewrite Es in Ls. cbn [fst] in Ls.
  unfold exact_budget. rewrite Eg. eexists. split; [reflexivity |].
  cbn [composed_scene scene_points scene_labels metadata total_points].
  rewrite length_to_float32, !length_app, repeat_length, Hal, Ls. lia.
Qed.

Lemma X4_exact_budget_from_10000_witness :
  exact_budget Demo.demo_np "parking_lot" 10000 1%Z.
Proof.
  apply (X4_exact_budget_from_10000 Demo.demo_np "parking_lot" 10000 1%Z).
  - simpl. auto.
  - lia.
Defined.

Example format_thousands_12000 : format_thousands 12000 = "12,000".
Proof. reflexivity. Qed.
Example format_thousands_1234567 : format_thousands (-1234567) = "-1,234,567".
Proof. reflexivity. Qed.
Example format_thousands_999 : format_thousands 999 = "999".
Proof. reflexivity. Qed.


(** ** Text *)

Lemma string_app_nil_r (s : string) : (s ++ "")%string = s.
Proof. induction s; simpl; congruence. Qed.

Lemma string_app_assoc (a b c : string) :
  ((a ++ b) ++ c)%string = (a ++ b ++ c)%string.
Proof. induction a; simpl; congruence. Qed.

Lemma concat_empty_cons (x : string) (xs : list string) :
  String.concat "" (x :: xs) = (x ++ String.concat "" xs)%string.
Proof.
  destruct xs; simpl; [now rewrite string_app_nil_r | reflexivity].
Qed.

(** A line without line feed, followed by a line feed, is split off. *)
Lemma lines_from_line (l rest current : string) :
  has_line_feed l = false ->
  lines_from ((l ++ nl) ++ rest) current =
  (current ++ l)%string :: lines_from rest "".
Proof.
  revert current. induction l as [|c l IH]; intros current Hl.
  - simpl. now rewrite string_app_nil_r.
  - simpl in Hl. apply orb_false_iff in Hl. destruct Hl as [Hc Hl].
    simpl. rewrite Hc, IH by assumption.
    now rewrite string_app_assoc.
Qed.

Lemma splitlines_concat (ls : list string) :
  Forall (fun l => has_line_feed l = false) ls ->
  splitlines (String.concat "" (map (fun l => (l ++ nl)%string) ls)) = ls.
Proof.
  unfold splitlines. induction 1 as [|l ls Hl _ IH]; [reflexivity |].
  simpl map. rewrite concat_empty_cons, lines_from_line by assumption.
  simpl. now rewrite IH.
Qed.

Lemma has_line_feed_app (a b : string) :
  has_line_feed (a ++ b) = has_line_feed a || has_line_feed b.
Proof. induction a; simpl; [reflexivity |]. now rewrite IHa, orb_assoc. Qed.

Lemma string_of_uint_no_line_feed (d : Decimal.uint) :
  has_line_feed (NilEmpty.string_of_uint d) = false.
Proof. induction d; simpl; auto. Qed.

Lemma str_of_Z_no_line_feed (z : Z) : has_line_feed (str_of_Z z) = false.
Proof.
  unfold str_of_Z, NilZero.string_of_int.
  destruct (Z.to_int z) as [d | d]; unfold NilZero.string_of_uint;
    destruct d; simpl; auto using string_of_uint_no_line_feed.
Qed.

(** ** The PLY exporter *)

(** X5: read back line by line, the text written by [_save_as_ply] is the
    eight header lines, whose third declares as many vertices as the scene
    has points, followed by exactly one line [x y z intensity] per point, in
    the order of the points; a scene without points gives the header alone.
    Labels do not appear. *)
Theorem X5_ply_lines (js : JsonLib) (io : IOLib js) (data : Scene) :
  single_line_floats io ->
  splitlines (SampleGeneratorIO.ply_text io data) =
  ply_header_lines (length (scene_points data)) ++
  map (ply_point_line io) (scene_points data).
Proof.
  intros Hf. unfold SampleGeneratorIO.ply_text.
  replace (SampleGeneratorIO.ply_header (scene_points data) ++
           map (SampleGeneratorIO.ply_point io) (scene_points data))
    with (map (fun l => (l ++ nl)%string)
              (ply_header_lines (length (scene_points data)) ++
               map (ply_point_line io) (scene_points data))).
  - apply splitlines_concat. apply Forall_app. split.
    + unfold ply_header_lines.
      repeat (apply Forall_cons;
              [first [reflexivity
                     | rewrite has_line_feed_app; simpl;
                       apply str_of_Z_no_line_feed] |]).
      apply Forall_nil.
    + apply Forall_map, Forall_forall. intros p _. unfold ply_point_line.
      repeat (rewrite has_line_feed_app; simpl). now rewrite !Hf.
  - rewrite map_app, map_map.
    apply (f_equal2 (@app string)); [reflexivity |].
    apply map_ext. intros p.
    unfold ply_point_line, SampleGeneratorIO.ply_point.
    now rewrite !string_app_assoc.
Qed.

Lemma demo_single_line_floats : single_line_floats DemoIO.demo_io.
Proof.
  intros q. simpl. unfold DemoIO.fraction_str.
  rewrite !has_line_feed_app, !str_of_Z_no_line_feed. reflexivity.
Qed.

Lemma X5_ply_lines_witness :
  splitlines (SampleGeneratorIO.ply_text DemoIO.demo_io Demo.demo_scene) =
  ply_header_lines (length (scene_points Demo.demo_scene)) ++
  map (ply_point_line DemoIO.demo_io) (scene_points Demo.demo_scene).
Proof.
  apply (X5_ply_lines Demo.demo_json DemoIO.demo_io Demo.demo_scene).
  exact demo_single_line_floats.
Defined.

(** ** Exporting a generated scene *)

Section Exporters.
Variable np : NumPy.
Variable js : JsonLib.
Variable io : IOLib js.
Import SampleGeneratorIO.

(** A scene with points and as many labels is exported in three files. *)
Lemma exporters_spec output_dir sc preset fs :
  scene_points sc <> [] ->
  length (scene_labels sc) = length (scene_points sc) ->
  total_points (metadata sc) = length (scene_points sc) ->
  exists fs1,
    _save_as_parquet io output_dir sc (preset ++ ".parquet") fs = Ok fs1 /\
    exported io output_dir preset sc fs
      (HighPerformanceSampleGenerator._save_as_json js output_dir sc
         (preset ++ ".json")
         (_save_as_ply io output_dir sc (preset ++ ".ply") fs1)).
Proof.
  intros Hne Hl Ht.
  assert (Htab : exists t, parquet_table sc = Ok t /\
             pq_x t = map px (scene_points sc) /\
             pq_y t = map py (scene_points sc) /\
             pq_z t = map pz (scene_points sc) /\
             pq_intensity t = map intensity (scene_points sc) /\
             pq_label t = scene_labels sc).
  { unfold parquet_table. destruct (scene_points sc) as [|p ps] eqn:Ep;
      [congruence |].
    rewrite Hl, Nat.eqb_refl. eexists. split; [reflexivity |].
    cbn. auto. }
  destruct Htab as (t & Et & Hx & Hy & Hz & Hi & Hlab).
  unfold _save_as_parquet. rewrite Et. eexists. split; [reflexivity |].
  exists t. split; [exact Et |].
  rewrite Hx, Hy, Hz, Hi, Hlab, !length_map, Hl, Ht.
  repeat split.
Qed.

(** The scene generated for a known preset can be exported. *)
Lemma generated_scene_exportable preset num_points s :
  In preset presets ->
  exists sc s',
    HighPerformanceSampleGenerator._generate_preset_data np preset num_points s
      = (Ok sc, s') /\
    scene_points sc <> [] /\
    length (scene_labels sc) = length (scene_points sc) /\
    total_points (metadata sc) = length (scene_points sc) /\
    scene_type sc = scene_type_of preset /\
    ((10000 <= num_points)%Z ->
       total_points (metadata sc) = Z.to_nat num_points).
Proof.
  intros Hin.
  destruct (generate_preset_data_spec np preset num_points s Hin)
    as (ap & al & so & s1 & surface & s2 & b & E & Es & Eb & Eg).
  pose proof (footprint_at_most_10000 np preset s ap al so s1 Hin E) as Hfoot.
  destruct (objects_phase_spec np preset s Hin)
    as (ap' & al' & so' & s1' & E' & [_ Hal] & Hne).
  rewrite E in E'. injection E' as <- <- <- <-. cbn [fst snd] in Hal.
  pose proof (surface_filler_spec np preset
                (num_points - Z.of_nat (length ap))%Z s1) as [Ls _].
  rewrite Es in Ls. cbn [fst] in Ls.
  rewrite Eg. do 2 eexists. split; [reflexivity |].
  cbn [composed_scene scene_points scene_labels scene_type metadata
       total_points].
  rewrite length_to_float32, !length_app, repeat_length, Hal.
  split.
  { unfold to_float32. destruct ap; [congruence | discriminate]. }
  repeat split. intros Hn. rewrite Ls. lia.
Qed.

(** ** Runs of the command line *)

Lemma run_print {B : Type} (line : string) (k : unit -> IO np js B) s fs out :
  bindE (print line) k (s, {| files := fs; stdout := out |}) =
  k tt (s, {| files := fs; stdout := out ++ [line] |}).
Proof. reflexivity. Qed.







End Exporters.

Lemma unknown_preset_keeps_generator np preset num_points s :
  ~ In preset presets ->
  HighPerformanceSampleGenerator._generate_preset_data np preset num_points s =
    (Err (AttributeError "_generate_random_scene"), s).
Proof.
  intros Hnot.
  unfold HighPerformanceSampleGenerator._generate_preset_data.
  destruct (String.eqb_spec preset "traffic_scene") as [-> | _];
    [exfalso; apply Hnot; simpl; auto |].
  destruct (String.eqb_spec preset "urban_street") as [-> | _];
    [exfalso; apply Hnot; simpl; auto |].
  destruct (String.eqb_spec preset "parking_lot") as [-> | _];
    [exfalso; apply Hnot; simpl; auto |].
  reflexivity.
Qed.


(** X6: for every known preset and every budget, the scene that
    [_generate_preset_data] returns is accepted by the three exporters:
    [_save_as_parquet] builds its table without [IndexError] or
    [ArrowInvalid], the five columns have [total_points] entries each, the
    label column is the scene's labels, and the Parquet, PLY and JSON files
    are written in this order on top of the files already there. *)
Theorem X6_generated_scene_is_exported (np : NumPy) (js : JsonLib)
  (io : IOLib js) (output_dir preset : string) (num_points : Z) (s : rng np)
  (fs : Files (text js)) :
  In preset presets ->
  exists sc s' fs1,
    HighPerformanceSampleGenerator._generate_preset_data np preset num_points s
      = (Ok sc, s') /\
    SampleGeneratorIO._save_as_parquet io output_dir sc (preset ++ ".parquet")
      fs = Ok fs1 /\
    exported io output_dir preset sc fs
      (HighPerformanceSampleGenerator._save_as_json js output_dir sc
         (preset ++ ".json")
         (SampleGeneratorIO._save_as_ply io output_dir sc (preset ++ ".ply")
            fs1)).
Proof.
  intros Hin.
  destruct (generated_scene_exportable np preset num_points s Hin)
    as (sc & s' & Eg & Hne & Hl & Ht & _).
  destruct (exporters_spec js io output_dir sc preset fs Hne Hl Ht)
    as (fs1 & E & Hex).
  exists sc, s', fs1. auto.
Qed.

Lemma X6_generated_scene_is_exported_witness :
  exists sc s' fs1,
    HighPerformanceSampleGenerator._generate_preset_data
      Demo.demo_np "traffic_scene" 100 1%Z = (Ok sc, s') /\
    SampleGeneratorIO._save_as_parquet DemoIO.demo_io "data/sample" sc
      "traffic_scene.parquet" [] = Ok fs1 /\
    exported DemoIO.demo_io "data/sample" "traffic_scene" sc []
      (HighPerformanceSampleGenerator._save_as_json Demo.demo_json
         "data/sample" sc "traffic_scene.json"
         (SampleGeneratorIO._save_as_ply DemoIO.demo_io "data/sample" sc
            "traffic_scene.ply" fs1)).
Proof.
  apply (X6_generated_scene_is_exported Demo.demo_np Demo.demo_json
           DemoIO.demo_io "data/sample" "traffic_scene" 100 1%Z []).
  simpl. auto.
Defined.




(** X9: [main] with [--preset] set to a non-empty name outside the three
    known presets prints its first line and then raises [AttributeError]
    from the missing [_generate_random_scene]: no file is written, no random
    number is drawn and the closing line is not printed. *)
Theorem X9_main_unknown_preset (np : NumPy) (js : JsonLib) (io : IOLib js)
  (output preset : string) (s : rng np) (w : World js) :
  preset <> ""%string -> ~ In preset presets ->
  preset_rejected np io output preset s w.
Proof.
  intros Hne Hnot. destruct w as [fs out].
  destruct preset as [|c p]; [congruence |].
  unfold preset_rejected, SampleGeneratorIO.main. cbv zeta.
  etransitivity; [apply run_print |]. cbv beta.
  unfold bindE, draw. cbn [fst snd].
  rewrite (unknown_preset_keeps_generator np _ _ _ Hnot). reflexivity.
Qed.

Lemma X9_main_unknown_preset_witness :
  preset_rejected Demo.demo_np DemoIO.demo_io "data/sample" "highway" 1%Z
    DemoIO.empty_world.
Proof.
  apply (X9_main_unknown_preset Demo.demo_np Demo.demo_json DemoIO.demo_io
           "data/sample" "highway" 1%Z DemoIO.empty_world).
  - discriminate.
  - simpl. intros [H | [H | [H | []]]]; discriminate H.
Defined.


